(** * The dedicated-server order workflow (v1main.go, v3main.go)

    Both programs are a single [main] that drives a signed HTTP client through
    eight dependent calls: create a cart, assign it, add a server, configure
    it, add options, check out, list the payment methods, pay.  The client
    (github.com/ovh/go-ovh) and the Go standard library are collaborators; the
    development models them as far as [main] observes them and embeds [main]
    itself statement by statement. *)

From Stdlib Require Import String Ascii ZArith List Lia Bool.
From Stdlib Require Import DecimalString DecimalPos.
Import ListNotations.

Open Scope string_scope.
Open Scope Z_scope.

(* ------------------------------------------------------------------------- *)
(** ** Dynamic Go values: what an [interface{}] of these programs can hold *)

Module Go.

#[local] Set Warnings "-register-all".

(** The dynamic types reachable here: what encoding/json puts into an
    [interface{}] when the decoder runs with [UseNumber] (as the go-ovh client
    does), plus the [int] and [int64] the programs place in request bodies. *)
Inductive value : Type :=
| VNil
| VBool (b : bool)
| VNumber (lit : string)            (* json.Number: the literal, untouched *)
| VString (s : string)
| VInt (n : Z)                      (* int *)
| VInt64 (n : Z)                    (* int64 *)
| VSlice (xs : list value)          (* []interface{} *)
| VMap (kvs : list (string * value)). (* map[string]interface{} *)

(** [map[string]interface{}]; the first binding of a key is the live one. *)
Definition gomap := list (string * value).

(** [m[k]]: the zero value [nil] when the key is absent (also on a nil map). *)
Fixpoint index (m : gomap) (k : string) : value :=
  match m with
  | [] => VNil
  | (k', v) :: m' => if String.eqb k' k then v else index m' k
  end.

(** The type name the runtime prints in a failed type assertion. *)
Definition type_name (v : value) : string :=
  match v with
  | VNil => "nil"
  | VBool _ => "bool"
  | VNumber _ => "json.Number"
  | VString _ => "string"
  | VInt _ => "int"
  | VInt64 _ => "int64"
  | VSlice _ => "[]interface {}"
  | VMap _ => "map[string]interface {}"
  end.

(** runtime.TypeAssertionError.Error for [x.(T)] on an [interface{}]. *)
Definition assertion_error (v : value) (asserted : string) : string :=
  "interface conversion: interface {} is " ++ type_name v ++ ", not " ++ asserted.

(** [x.(string)] and [x.(json.Number)], single-result form: the value, or the
    panic the runtime raises. *)
Definition assert_string (v : value) : string + string :=
  match v with
  | VString s => inl s
  | _ => inr (assertion_error v "string")
  end.

Definition assert_Number (v : value) : string + string :=
  match v with
  | VNumber lit => inl lit
  | _ => inr (assertion_error v "json.Number")
  end.

(** *** Formatting *)

(** [%d] of an integer. *)
Definition itoa (n : Z) : string := NilZero.string_of_int (Z.to_int n).

(** Keys of a printed map come sorted (fmt sorts map keys); [canon] keeps the
    live binding of every key and orders the keys bytewise. *)
Fixpoint ins (k : string) (s : string) (acc : list (string * string))
  : list (string * string) :=
  match acc with
  | [] => [(k, s)]
  | (k', s') :: acc' =>
      match String.compare k k' with
      | Lt => (k, s) :: acc
      | Eq => acc
      | Gt => (k', s') :: ins k s acc'
      end
  end.

Definition canon (kvs : list (string * string)) : list (string * string) :=
  fold_left (fun acc kv => ins (fst kv) (snd kv) acc) kvs [].

(** [%v]. *)
Fixpoint fmt_v (v : value) : string :=
  match v with
  | VNil => "<nil>"
  | VBool true => "true"
  | VBool false => "false"
  | VNumber lit => lit
  | VString s => s
  | VInt n => itoa n
  | VInt64 n => itoa n
  | VSlice xs => "[" ++ String.concat " " (map fmt_v xs) ++ "]"
  | VMap kvs =>
      "map[" ++
      String.concat " "
        (map (fun ks => fst ks ++ ":" ++ snd ks)
           (canon (map (fun kv => (fst kv, fmt_v (snd kv))) kvs))) ++ "]"
  end.

(** [%v] of a [[]map[string]interface{}]. *)
Definition fmt_maps (ms : list gomap) : string :=
  "[" ++ String.concat " " (map (fun m => fmt_v (VMap m)) ms) ++ "]".

End Go.
Import Go.

(* ------------------------------------------------------------------------- *)
(** ** strconv.ParseInt(s, 10, 64) *)

Module Strconv.

Inductive num_err := ErrSyntax | ErrRange.

Definition num_err_text (e : num_err) : string :=
  match e with
  | ErrSyntax => "invalid syntax"
  | ErrRange => "value out of range"
  end.

Definition wrap_u64 (n : Z) : Z := n mod 2 ^ 64.

Definition digit_of (c : ascii) : option Z :=
  let n := Z.of_N (N_of_ascii c) in
  if (48 <=? n) && (n <=? 57) then Some (n - 48) else None.

(** The digit loop of ParseUint at base 10, bit size 64.  [n] is a uint64. *)
Fixpoint parse_digits (s : string) (n : Z) : Z + num_err :=
  match s with
  | EmptyString => inl n
  | String c s' =>
      match digit_of c with
      | None => inr ErrSyntax
      | Some d =>
          if n >=? (2 ^ 64 - 1) / 10 + 1 then inr ErrRange
          else
            let n10 := wrap_u64 (n * 10) in
            let n1 := wrap_u64 (n10 + d) in
            if (n1 <? n10) || (n1 >? 2 ^ 64 - 1) then inr ErrRange
            else parse_digits s' n1
      end
  end.

Definition ParseUint (s : string) : Z + num_err :=
  match s with
  | EmptyString => inr ErrSyntax
  | _ => parse_digits s 0
  end.

(** ParseInt picks off one sign, parses the rest unsigned and checks it
    against the cutoff 1<<63.  A range error of ParseUint falls through to the
    cutoff test with the saturated value 1<<64 - 1. *)
Definition ParseInt (s : string) : Z + num_err :=
  match s with
  | EmptyString => inr ErrSyntax
  | String c s' =>
      let neg := Ascii.eqb c "-" in
      let rest := if Ascii.eqb c "+" || neg then s' else s in
      match ParseUint rest with
      | inr ErrSyntax => inr ErrSyntax
      | r =>
          let un := match r with inl n => n | inr _ => 2 ^ 64 - 1 end in
          let cutoff := 2 ^ 63 in
          if negb neg && (un >=? cutoff) then inr ErrRange
          else if neg && (un >? cutoff) then inr ErrRange
          else inl (if neg then - un else un)
      end
  end.

(** strconv.Quote on the strings that reach it here.  A json.Number made by
    the decoder is a JSON number literal (digits, sign, point, exponent), on
    which quoting only adds the surrounding quotes; backslash and quote are
    escaped as Go does.  Bytes outside printable ASCII are left as they are. *)
Definition dquote : string := String (ascii_of_nat 34) EmptyString.
Definition backslash : string := String (ascii_of_nat 92) EmptyString.

Fixpoint escape (s : string) : string :=
  match s with
  | EmptyString => EmptyString
  | String c s' =>
      (if Ascii.eqb c (ascii_of_nat 34) || Ascii.eqb c (ascii_of_nat 92)
       then backslash else EmptyString) ++ String c (escape s')
  end.

Definition Quote (s : string) : string := dquote ++ escape s ++ dquote.

(** The Error method of strconv.NumError. *)
Definition NumError_text (fn num : string) (e : num_err) : string :=
  "strconv." ++ fn ++ ": parsing " ++ Quote num ++ ": " ++ num_err_text e.

End Strconv.
Import Strconv.

(* ------------------------------------------------------------------------- *)
(** ** package time, as far as [time.Now().AddDate(0, 1, 0).Format(time.RFC3339)]
    goes *)

Module Time.

(** A wall-clock reading. *)
Record clock : Type := Clock {
  year : Z; month : Z; day : Z;
  hour : Z; minute : Z; second : Z }.

(** A *Location, as time.Date consults it: asked for a wall-clock reading,
    it answers with the reading and the offset (seconds east of UTC) of the
    instant Date settles on.  Where the zone has the reading once that is
    the reading itself with the offset in force then; where a transition
    repeats or skips it, Date picks one of the two offsets, and a skipped
    reading comes back shifted. *)
Definition Location : Type := clock -> clock * Z.

(** time.FixedZone and time.UTC keep every reading. *)
Definition FixedZone (off : Z) : Location := fun w => (w, off).
Definition UTC : Location := FixedZone 0.

(** A Time as the programs observe it: its reading and offset in its
    location.  Nanoseconds are left out: AddDate keeps them and RFC3339 does
    not print them. *)
Record t : Type := mk {
  wall : clock;
  offset : Z;
  location : Location }.

Definition isLeap (y : Z) : bool :=
  (y mod 4 =? 0) && (negb (y mod 100 =? 0) || (y mod 400 =? 0)).

Definition daysIn (m y : Z) : Z :=
  if m =? 2 then (if isLeap y then 29 else 28)
  else if (m =? 4) || (m =? 6) || (m =? 9) || (m =? 11) then 30
  else 31.

Definition valid (w : clock) : Prop :=
  1 <= month w <= 12 /\ 1 <= day w <= daysIn (month w) (year w) /\
  0 <= hour w < 24 /\ 0 <= minute w < 60 /\ 0 <= second w < 60.

(** time.Date normalises its arguments: a month outside 1..12 overflows into
    the year, a day past the end of its month into the next month ("October 32
    converts to November 1").  The day carry is written for an overflow of
    less than a month, the only kind a shift by whole months of a valid date
    produces; hour, minute and second stay in range there.  The normalised
    reading is then looked up in the location. *)
Definition Date (y m d hh mm ss : Z) (loc : Location) : t :=
  let y1 := y + (m - 1) / 12 in
  let m1 := (m - 1) mod 12 + 1 in
  let w :=
    if d <=? daysIn m1 y1 then Clock y1 m1 d hh mm ss
    else
      let d2 := d - daysIn m1 y1 in
      let y2 := y1 + m1 / 12 in
      let m2 := m1 mod 12 + 1 in
      Clock y2 m2 d2 hh mm ss in
  mk (fst (loc w)) (snd (loc w)) loc.

(** AddDate(years, months, 0): Date on the shifted fields, in the location
    of the time. *)
Definition AddDate (x : t) (years months : Z) : t :=
  Date (year (wall x) + years) (month (wall x) + months) (day (wall x))
       (hour (wall x)) (minute (wall x)) (second (wall x)) (location x).

(** appendInt(b, x, width): decimal, zero-padded to [width], a leading minus
    for a negative number. *)
Fixpoint zeros (n : nat) : string :=
  match n with O => EmptyString | S n' => String "0" (zeros n') end.

Definition appendInt (x : Z) (width : nat) : string :=
  let digits := itoa (Z.abs x) in
  (if x <? 0 then "-" else EmptyString) ++
  zeros (width - String.length digits) ++ digits.

(** Format(time.RFC3339), layout 2006-01-02T15:04:05Z07:00. *)
Definition Format_RFC3339 (x : t) : string :=
  appendInt (year (wall x)) 4 ++ "-" ++ appendInt (month (wall x)) 2 ++ "-" ++
  appendInt (day (wall x)) 2 ++ "T" ++ appendInt (hour (wall x)) 2 ++ ":" ++
  appendInt (minute (wall x)) 2 ++ ":" ++ appendInt (second (wall x)) 2 ++
  (if offset x =? 0 then "Z"
   else
     let zone := Z.quot (offset x) 60 in
     (if zone <? 0 then "-" else "+") ++
     appendInt (Z.quot (Z.abs zone) 60) 2 ++ ":" ++
     appendInt (Z.rem (Z.abs zone) 60) 2).

(** time.Duration is an int64 count of nanoseconds. *)
Definition wrap_i64 (n : Z) : Z := (n + 2 ^ 63) mod 2 ^ 64 - 2 ^ 63.
Definition Second : Z := 1000000000.

End Time.

(* ------------------------------------------------------------------------- *)
(** ** The client, the observable events and the monad [main] runs in *)

Module Engine.

(** Which of the workflow's eight calls an event belongs to (a ghost label:
    the sources mark the calls with their "Step N" comments). *)
Inductive step : Type :=
| CreateCart | AssignCart | AddItem | ConfigureItem | AddOption
| Checkout | FetchPaymentMethods | Pay.

Inductive request : Type :=
| POST (path : string) (body : value)
| GET (path : string).

(** What one call left behind: the error's text, nothing (no result was asked
    for), or the decoded result. *)
Inductive reply : Type :=
| Failed (err : string)
| Done
| GotMap (m : gomap)
| GotMaps (ms : list gomap).

Inductive event : Type :=
| ECall (s : step) (rq : request) (rp : reply)
| ESleep (ns : Z)                  (* time.Sleep *)
| EPrint (text : string)           (* fmt.Printf, fmt.Println *)
| ELog (text : string).            (* log.Printf *)

(** The go-ovh client in the three shapes [main] calls it.  A deterministic
    remote may answer by everything that happened before, so each method
    takes the events so far.  An error is its text ([%v] prints [Error()]).
    [PostInto] is [Post(path, body, &m)] on a fresh map [m]: the error, or
    the map as the call leaves it; [PostOnly] is [Post(path, body, nil)];
    [GetInto] is [Get(path, &ms)] on a nil [[]map[string]interface{}]. *)
Record Client : Type := {
  PostInto : list event -> string -> value -> string + gomap;
  PostOnly : list event -> string -> value -> option string;
  GetInto : list event -> string -> string + list gomap }.

(** How a run ends: [main] returns, log.Fatal exits with a message, or the
    runtime panics. *)
Inductive result (A : Type) : Type :=
| Ret (a : A)
| Fatal (msg : string)
| Panic (msg : string).
Arguments Ret {A} a.
Arguments Fatal {A} msg.
Arguments Panic {A} msg.

Definition M (A : Type) : Type := list event -> list event * result A.

Definition ret {A} (a : A) : M A := fun tr => (tr, Ret a).

Definition bind {A B} (m : M A) (k : A -> M B) : M B :=
  fun tr =>
    match m tr with
    | (tr', Ret a) => k a tr'
    | (tr', Fatal msg) => (tr', Fatal msg)
    | (tr', Panic msg) => (tr', Panic msg)
    end.

Notation "x <- m ;; k" := (bind m (fun x => k))
  (at level 61, m at next level, right associativity).
Notation "m ;; k" := (bind m (fun _ => k))
  (at level 61, right associativity).

Definition emit (e : event) : M unit := fun tr => ((tr ++ [e])%list, Ret tt).

Definition Fatalf {A} (msg : string) : M A := fun tr => (tr, Fatal msg).
Definition panic {A} (msg : string) : M A := fun tr => (tr, Panic msg).
Definition Printf (text : string) : M unit := emit (EPrint text).
Definition log_Printf (text : string) : M unit := emit (ELog text).
Definition Sleep (ns : Z) : M unit := emit (ESleep ns).

Definition nl : string := String (ascii_of_nat 10) EmptyString.

Section WithClient.
Variable c : Client.

Definition post_into (s : step) (path : string) (body : value)
  : M (string + gomap) :=
  fun tr =>
    let r := PostInto c tr path body in
    ((tr ++ [ECall s (POST path body)
               (match r with inl e => Failed e | inr m => GotMap m end)])%list,
     Ret r).

Definition post_only (s : step) (path : string) (body : value)
  : M (option string) :=
  fun tr =>
    let r := PostOnly c tr path body in
    ((tr ++ [ECall s (POST path body)
               (match r with Some e => Failed e | None => Done end)])%list,
     Ret r).

Definition get_into (s : step) (path : string) : M (string + list gomap) :=
  fun tr =>
    let r := GetInto c tr path in
    ((tr ++ [ECall s (GET path)
               (match r with inl e => Failed e | inr ms => GotMaps ms end)])%list,
     Ret r).
End WithClient.

(** [x.(string)], [x.(json.Number)]: a failed assertion panics. *)
Definition as_string (v : value) : M string :=
  match assert_string v with inl s => ret s | inr msg => panic msg end.

Definition as_Number (v : value) : M string :=
  match assert_Number v with inl lit => ret lit | inr msg => panic msg end.

(** [for _, x := range xs { body }] *)
Fixpoint for_range {A} (xs : list A) (body : A -> M unit) : M unit :=
  match xs with
  | [] => ret tt
  | x :: xs' => body x ;; for_range xs' body
  end.

(** The requests of a trace, in order. *)
Definition requests (tr : list event) : list request :=
  flat_map (fun e => match e with ECall _ rq _ => [rq] | _ => [] end) tr.

Definition step_eqb (s s' : step) : bool :=
  match s, s' with
  | CreateCart, CreateCart | AssignCart, AssignCart | AddItem, AddItem
  | ConfigureItem, ConfigureItem | AddOption, AddOption
  | Checkout, Checkout | FetchPaymentMethods, FetchPaymentMethods
  | Pay, Pay => true
  | _, _ => false
  end.

(** The calls of one step: their requests and their replies. *)
Definition requests_of (s : step) (tr : list event) : list request :=
  flat_map (fun e => match e with
                     | ECall s' rq _ => if step_eqb s s' then [rq] else []
                     | _ => []
                     end) tr.

Definition replies_of (s : step) (tr : list event) : list reply :=
  flat_map (fun e => match e with
                     | ECall s' _ rp => if step_eqb s s' then [rp] else []
                     | _ => []
                     end) tr.

(** Nanoseconds slept. *)
Definition slept (tr : list event) : Z :=
  fold_right (fun e acc => match e with ESleep ns => ns + acc | _ => acc end)
             0 tr.

End Engine.
Import Engine.

(* ------------------------------------------------------------------------- *)
(** ** v1main.go *)

Module V1.
Section Main.
Variable c : Client.
Variable now : Time.t.            (* what time.Now() returns at Step 1 *)

Definition maxRetries : Z := 3.

Definition configItems : list (string * string) :=
  [("dedicated_os", "none_64_en");
   ("region", "united_states");
   ("dedicated_datacenter", "hil")].

(** Body of the Step 4 loop. *)
Definition configure (cartID : string) (itemID : Z)
           (config : string * string) : M unit :=
  r <- post_into c ConfigureItem
         ("/order/cart/" ++ cartID ++ "/item/" ++ itoa itemID ++
          "/configuration")
         (VMap [("label", VString (fst config));
                ("value", VString (snd config))]) ;;
  match r with
  | inl err => Fatalf ("Error configuring " ++ fst config ++ ": " ++ err)
  | inr _ =>
      Printf ("Configured " ++ fst config ++ " with value " ++
              snd config ++ nl)
  end.

(** The Step 6 loop, [for attempt := 1; attempt <= maxRetries; attempt++].
    [err] and [order] are the variables the loop leaves behind; [fuel]
    bounds the iterations ([checkout_loop_fuel]: maxRetries + 1 - attempt
    is enough).  math.Pow(2, float64(attempt)) is the exact power for the
    attempts reached, the product with time.Second an int64. *)
Fixpoint checkout_loop (fuel : nat) (cartID : string) (attempt : Z)
         (err : option string) (order : gomap)
  : M (option string * gomap) :=
  match fuel with
  | O => ret (err, order)
  | S fuel' =>
      if attempt <=? maxRetries then
        r <- post_into c Checkout
               ("/order/cart/" ++ cartID ++ "/checkout") VNil ;;
        match r with
        | inr m => ret (None, m)                       (* break *)
        | inl e =>
            log_Printf ("Attempt " ++ itoa attempt ++
                        " failed with error: " ++ e ++ ". Retrying..." ++
                        nl) ;;
            Sleep (Time.wrap_i64 (2 ^ attempt * Time.Second)) ;;
            checkout_loop fuel' cartID (attempt + 1) (Some e) order
        end
      else ret (err, order)
  end.

(** Lines 37-160: everything after the client has been made. *)
Definition steps : M unit :=
  (* Step 1: Create a new cart *)
  let expireDate := Time.Format_RFC3339 (Time.AddDate now 0 1) in
  r <- post_into c CreateCart "/order/cart"
         (VMap [("ovhSubsidiary", VString "US");
                ("description", VString "Automated Dedicated Server Order");
                ("expire", VString expireDate)]) ;;
  match r with
  | inl err => Fatalf ("Error creating cart: " ++ err)
  | inr cart =>
  cartID <- as_string (index cart "cartId") ;;
  Printf ("Created Cart with ID: " ++ cartID ++ nl) ;;
  (* Step 2: Assign the cart to the logged-in user *)
  r <- post_only c AssignCart ("/order/cart/" ++ cartID ++ "/assign") VNil ;;
  match r with
  | Some err => Fatalf ("Error assigning cart: " ++ err)
  | None =>
  Printf ("Assigned cart to the logged-in user." ++ nl) ;;
  (* Step 3: Add a dedicated server to the cart *)
  r <- post_into c AddItem ("/order/cart/" ++ cartID ++ "/baremetalServers")
         (VMap [("duration", VString "P1M");
                ("planCode", VString "24rise01-us");
                ("pricingMode", VString "default");
                ("quantity", VInt 1)]) ;;
  match r with
  | inl err => Fatalf ("Error adding server to cart: " ++ err)
  | inr server =>
  itemIDStr <- as_Number (index server "itemId") ;;
  match ParseInt itemIDStr with
  | inr e =>
      Fatalf ("Error converting itemId to int64: " ++
              NumError_text "ParseInt" itemIDStr e)
  | inl itemID =>
  Printf ("Added Server to Cart with Item ID: " ++ itoa itemID ++ nl) ;;
  (* Step 4: Configure the server *)
  for_range configItems (configure cartID itemID) ;;
  (* Step 5: Add an option *)
  r <- post_into c AddOption
         ("/order/cart/" ++ cartID ++ "/baremetalServers/options")
         (VMap [("duration", VString "P1M");
                ("itemId", VInt64 itemID);
                ("planCode", VString "vrack-bandwidth-1000-24rise-us");
                ("pricingMode", VString "default");
                ("quantity", VInt 1)]) ;;
  match r with
  | inl err => Fatalf ("Error adding option: " ++ err)
  | inr _ =>
  Printf ("Added option to the server." ++ nl) ;;
  (* Step 6: Validate the order and proceed to checkout *)
  eo <- checkout_loop (Z.to_nat maxRetries) cartID 1 None [] ;;
  match fst eo with
  | Some _ =>
      Fatalf ("Order validation failed: failed after " ++ itoa maxRetries ++
              " retries")
  | None =>
  let order := snd eo in
  let orderID := fmt_v (index order "orderId") in
  Printf ("Order validated. Order ID: " ++ orderID ++ nl) ;;
  (* Step 7: Fetch available payment methods for this order *)
  r <- get_into c FetchPaymentMethods
         ("/me/order/" ++ orderID ++ "/availablePaymentMethod") ;;
  match r with
  | inl err => Fatalf ("Error fetching payment methods: " ++ err)
  | inr paymentMethods =>
  Printf ("Available Payment Methods: " ++ fmt_maps paymentMethods ++ nl) ;;
  match paymentMethods with
  | first :: _ =>
      paymentID <- as_Number (index first "id") ;;
      paymentType <- as_string (index first "type") ;;
      (* Step 8: Pay for the order *)
      r <- post_into c Pay ("/me/order/" ++ orderID ++ "/pay")
             (VMap [("paymentMethod",
                     VMap [("id", VNumber paymentID);
                           ("type", VString paymentType)])]) ;;
      match r with
      | inl err => Fatalf ("Error paying for the order: " ++ err)
      | inr _ => Printf ("Order has been successfully paid." ++ nl)
      end
  | [] => Fatalf "No available payment methods found."
  end end end end end end end end.
End Main.

(** Lines 16-35, then [steps] on an empty trace. *)
Definition main (getenv : string -> string)
           (NewClient : string -> string -> string -> string -> string + Client)
           (now : Time.t) : list event * result unit :=
  let endpoint := getenv "OVH_ENDPOINT" in
  let appKey := getenv "OVH_APPLICATION_KEY" in
  let appSecret := getenv "OVH_APPLICATION_SECRET" in
  let consumerKey := getenv "OVH_CONSUMER_KEY" in
  if String.eqb endpoint "" || String.eqb appKey "" ||
     String.eqb appSecret "" || String.eqb consumerKey ""
  then ([], Fatal ("Please set OVH_ENDPOINT, OVH_APPLICATION_KEY, " ++
                   "OVH_APPLICATION_SECRET, and OVH_CONSUMER_KEY " ++
                   "environment variables"))
  else
    match NewClient endpoint appKey appSecret consumerKey with
    | inl err => ([], Fatal ("Error creating OVH client: " ++ err))
    | inr client => steps client now []
    end.

End V1.

(* ------------------------------------------------------------------------- *)
(** ** v3main.go *)

Module V3.
Section Main.
Variable c : Client.
Variable now : Time.t.

Definition configItems : list (string * string) :=
  [("dedicated_os", "none_64.en");
   ("region", "united_states");
   ("dedicated_datacenter", "hil")].

Definition options : list string :=
  ["vrack-bandwidth-1000-24rise-us";
   "softraid-2x512nvme-24rise-us";
   "ram-32g-ecc-3200-24rise-us";
   "bandwidth-1000-unguaranteed-24rise-us"].

(** Body of the Step 4 loop. *)
Definition configure (cartID : string) (itemID : Z)
           (config : string * string) : M unit :=
  r <- post_into c ConfigureItem
         ("/order/cart/" ++ cartID ++ "/item/" ++ itoa itemID ++
          "/configuration")
         (VMap [("label", VString (fst config));
                ("value", VString (snd config))]) ;;
  match r with
  | inl err => Fatalf ("Error configuring " ++ fst config ++ ": " ++ err)
  | inr _ =>
      Printf ("Configured " ++ fst config ++ " with value " ++
              snd config ++ nl)
  end.

(** Body of the Step 5 loop. *)
Definition add_option (cartID : string) (itemID : Z) (planCode : string)
  : M unit :=
  r <- post_into c AddOption
         ("/order/cart/" ++ cartID ++ "/baremetalServers/options")
         (VMap [("duration", VString "P1M");
                ("itemId", VInt64 itemID);
                ("planCode", VString planCode);
                ("pricingMode", VString "default");
                ("quantity", VInt 1)]) ;;
  match r with
  | inl err =>
      Fatalf ("Error adding option with planCode " ++ planCode ++ ": " ++
              err)
  | inr _ => Printf ("Added option with planCode " ++ planCode ++ nl)
  end.

(** Lines 36-158. *)
Definition steps : M unit :=
  (* Step 1: Create a new cart *)
  let expireDate := Time.Format_RFC3339 (Time.AddDate now 0 1) in
  r <- post_into c CreateCart "/order/cart"
         (VMap [("ovhSubsidiary", VString "US");
                ("description", VString "Automated Dedicated Server Order");
                ("expire", VString expireDate)]) ;;
  match r with
  | inl err => Fatalf ("Error creating cart: " ++ err)
  | inr cart =>
  cartID <- as_string (index cart "cartId") ;;
  Printf ("Created Cart with ID: " ++ cartID ++ nl) ;;
  (* Step 2: Assign the cart to the logged-in user *)
  r <- post_only c AssignCart ("/order/cart/" ++ cartID ++ "/assign") VNil ;;
  match r with
  | Some err => Fatalf ("Error assigning cart: " ++ err)
  | None =>
  Printf ("Assigned cart to the logged-in user." ++ nl) ;;
  (* Step 3: Add a dedicated server to the cart *)
  r <- post_into c AddItem ("/order/cart/" ++ cartID ++ "/baremetalServers")
         (VMap [("duration", VString "P1M");
                ("planCode", VString "24rise01-us");
                ("pricingMode", VString "default");
                ("quantity", VInt 1)]) ;;
  match r with
  | inl err => Fatalf ("Error adding server to cart: " ++ err)
  | inr server =>
  itemIDNum <- as_Number (index server "itemId") ;;
  match ParseInt itemIDNum with
  | inr e =>
      Fatalf ("Error converting itemId to integer: " ++
              NumError_text "ParseInt" itemIDNum e)
  | inl itemID =>
  Printf ("Added Server to Cart with Item ID: " ++ itoa itemID ++ nl) ;;
  (* Step 4 *)
  for_range configItems (configure cartID itemID) ;;
  (* Step 5: Add options *)
  for_range options (add_option cartID itemID) ;;
  (* Step 6: Validate the order and proceed to checkout *)
  r <- post_into c Checkout ("/order/cart/" ++ cartID ++ "/checkout") VNil ;;
  match r with
  | inl err => Fatalf ("Error validating order: " ++ err)
  | inr order =>
  let orderID := fmt_v (index order "orderId") in
  Printf ("Order validated. Order ID: " ++ orderID ++ nl) ;;
  (* Step 7: Fetch available payment methods for this order *)
  r <- get_into c FetchPaymentMethods
         ("/me/order/" ++ orderID ++ "/availablePaymentMethod") ;;
  match r with
  | inl err => Fatalf ("Error fetching payment methods: " ++ err)
  | inr paymentMethods =>
  Printf ("Available Payment Methods: " ++ fmt_maps paymentMethods ++ nl) ;;
  match paymentMethods with
  | first :: _ =>
      paymentID <- as_Number (index first "id") ;;
      paymentType <- as_string (index first "type") ;;
      (* Step 8: Pay for the order *)
      r <- post_into c Pay ("/me/order/" ++ orderID ++ "/pay")
             (VMap [("paymentMethod",
                     VMap [("id", VNumber paymentID);
                           ("type", VString paymentType)])]) ;;
      match r with
      | inl err => Fatalf ("Error paying for the order: " ++ err)
      | inr _ => Printf ("Order has been successfully paid." ++ nl)
      end
  | [] => Fatalf "No available payment methods found."
  end end end end end end end.
End Main.

(** Lines 15-34, then [steps] on an empty trace. *)
Definition main (getenv : string -> string)
           (NewClient : string -> string -> string -> string -> string + Client)
           (now : Time.t) : list event * result unit :=
  let endpoint := getenv "OVH_ENDPOINT" in
  let appKey := getenv "OVH_APPLICATION_KEY" in
  let appSecret := getenv "OVH_APPLICATION_SECRET" in
  let consumerKey := getenv "OVH_CONSUMER_KEY" in
  if String.eqb endpoint "" || String.eqb appKey "" ||
     String.eqb appSecret "" || String.eqb consumerKey ""
  then ([], Fatal ("Please set OVH_ENDPOINT, OVH_APPLICATION_KEY, " ++
                   "OVH_APPLICATION_SECRET, and OVH_CONSUMER_KEY " ++
                   "environment variables"))
  else
    match NewClient endpoint appKey appSecret consumerKey with
    | inl err => ([], Fatal ("Error creating OVH client: " ++ err))
    | inr client => steps client now []
    end.

End V3.

(* ------------------------------------------------------------------------- *)
(** ** One workflow for both programs *)

(** The spec proposes to "parameterize product/configuration/option selection
    rather than duplicate the workflow".  [Workflow.steps] is that one
    workflow: the statements the two sources share, with the operating-system
    value, the option plan codes and the number of checkout attempts as
    parameters.  It is what the two embeddings above are compared with, not a
    third program of the repository. *)
Module Workflow.
Section Main.
Variable c : Client.
Variable now : Time.t.
Variable os_value : string.
Variable options : list string.
Variable maxRetries : Z.

Definition configItems : list (string * string) :=
  [("dedicated_os", os_value);
   ("region", "united_states");
   ("dedicated_datacenter", "hil")].

Definition configure (cartID : string) (itemID : Z)
           (config : string * string) : M unit :=
  r <- post_into c ConfigureItem
         ("/order/cart/" ++ cartID ++ "/item/" ++ itoa itemID ++
          "/configuration")
         (VMap [("label", VString (fst config));
                ("value", VString (snd config))]) ;;
  match r with
  | inl err => Fatalf ("Error configuring " ++ fst config ++ ": " ++ err)
  | inr _ =>
      Printf ("Configured " ++ fst config ++ " with value " ++
              snd config ++ nl)
  end.

Definition add_option (cartID : string) (itemID : Z) (planCode : string)
  : M unit :=
  r <- post_into c AddOption
         ("/order/cart/" ++ cartID ++ "/baremetalServers/options")
         (VMap [("duration", VString "P1M");
                ("itemId", VInt64 itemID);
                ("planCode", VString planCode);
                ("pricingMode", VString "default");
                ("quantity", VInt 1)]) ;;
  match r with
  | inl err =>
      Fatalf ("Error adding option with planCode " ++ planCode ++ ": " ++
              err)
  | inr _ => Printf ("Added option with planCode " ++ planCode ++ nl)
  end.

Fixpoint checkout_loop (fuel : nat) (cartID : string) (attempt : Z)
         (err : option string) (order : gomap)
  : M (option string * gomap) :=
  match fuel with
  | O => ret (err, order)
  | S fuel' =>
      if attempt <=? maxRetries then
        r <- post_into c Checkout
               ("/order/cart/" ++ cartID ++ "/checkout") VNil ;;
        match r with
        | inr m => ret (None, m)
        | inl e =>
            log_Printf ("Attempt " ++ itoa attempt ++
                        " failed with error: " ++ e ++ ". Retrying..." ++
                        nl) ;;
            Sleep (Time.wrap_i64 (2 ^ attempt * Time.Second)) ;;
            checkout_loop fuel' cartID (attempt + 1) (Some e) order
        end
      else ret (err, order)
  end.

Definition steps : M unit :=
  let expireDate := Time.Format_RFC3339 (Time.AddDate now 0 1) in
  r <- post_into c CreateCart "/order/cart"
         (VMap [("ovhSubsidiary", VString "US");
                ("description", VString "Automated Dedicated Server Order");
                ("expire", VString expireDate)]) ;;
  match r with
  | inl err => Fatalf ("Error creating cart: " ++ err)
  | inr cart =>
  cartID <- as_string (index cart "cartId") ;;
  Printf ("Created Cart with ID: " ++ cartID ++ nl) ;;
  r <- post_only c AssignCart ("/order/cart/" ++ cartID ++ "/assign") VNil ;;
  match r with
  | Some err => Fatalf ("Error assigning cart: " ++ err)
  | None =>
  Printf ("Assigned cart to the logged-in user." ++ nl) ;;
  r <- post_into c AddItem ("/order/cart/" ++ cartID ++ "/baremetalServers")
         (VMap [("duration", VString "P1M");
                ("planCode", VString "24rise01-us");
                ("pricingMode", VString "default");
                ("quantity", VInt 1)]) ;;
  match r with
  | inl err => Fatalf ("Error adding server to cart: " ++ err)
  | inr server =>
  itemIDNum <- as_Number (index server "itemId") ;;
  match ParseInt itemIDNum with
  | inr e =>
      Fatalf ("Error converting itemId: " ++
              NumError_text "ParseInt" itemIDNum e)
  | inl itemID =>
  Printf ("Added Server to Cart with Item ID: " ++ itoa itemID ++ nl) ;;
  for_range configItems (configure cartID itemID) ;;
  for_range options (add_option cartID itemID) ;;
  eo <- checkout_loop (Z.to_nat maxRetries) cartID 1 None [] ;;
  match fst eo with
  | Some _ =>
      Fatalf ("Order validation failed: failed after " ++ itoa maxRetries ++
              " retries")
  | None =>
  let order := snd eo in
  let orderID := fmt_v (index order "orderId") in
  Printf ("Order validated. Order ID: " ++ orderID ++ nl) ;;
  r <- get_into c FetchPaymentMethods
         ("/me/order/" ++ orderID ++ "/availablePaymentMethod") ;;
  match r with
  | inl err => Fatalf ("Error fetching payment methods: " ++ err)
  | inr paymentMethods =>
  Printf ("Available Payment Methods: " ++ fmt_maps paymentMethods ++ nl) ;;
  match paymentMethods with
  | first :: _ =>
      paymentID <- as_Number (index first "id") ;;
      paymentType <- as_string (index first "type") ;;
      r <- post_into c Pay ("/me/order/" ++ orderID ++ "/pay")
             (VMap [("paymentMethod",
                     VMap [("id", VNumber paymentID);
                           ("type", VString paymentType)])]) ;;
      match r with
      | inl err => Fatalf ("Error paying for the order: " ++ err)
      | inr _ => Printf ("Order has been successfully paid." ++ nl)
      end
  | [] => Fatalf "No available payment methods found."
  end end end end end end end.
End Main.

(** The data of v1main.go and of v3main.go. *)
Definition v1 (c : Client) (now : Time.t) : M unit :=
  steps c now "none_64_en" ["vrack-bandwidth-1000-24rise-us"] 3.

Definition v3 (c : Client) (now : Time.t) : M unit :=
  steps c now "none_64.en" V3.options 1.

(** v3main.go as the spec describes it: v1 but for the data. *)
Definition v3_as_claimed (c : Client) (now : Time.t) : M unit :=
  steps c now "none_64.en" V3.options 3.

End Workflow.

(** A run of either program. *)
Definition runs (c : Client) (now : Time.t) (r : list event * result unit)
  : Prop :=
  r = V1.steps c now [] \/ r = V3.steps c now [].

(* ------------------------------------------------------------------------- *)
(** ** Stub remotes *)

Module Stub.

(** A remote that accepts everything: cart [c-1], item [42], order [o-9] and
    the given payment methods. *)
Definition happy (pms : list gomap) : Client :=
  {| PostInto := fun _ path _ =>
       if String.eqb path "/order/cart" then inr [("cartId", VString "c-1")]
       else if String.eqb path "/order/cart/c-1/baremetalServers"
            then inr [("itemId", VNumber "42")]
       else if String.eqb path "/order/cart/c-1/checkout"
            then inr [("orderId", VString "o-9")]
       else inr [];
     PostOnly := fun _ _ _ => None;
     GetInto := fun _ _ => inr pms |}.

(** As [happy], but the server reply carries [v] as [itemId]. *)
Definition item (v : value) (pms : list gomap) : Client :=
  {| PostInto := fun tr path body =>
       if String.eqb path "/order/cart/c-1/baremetalServers"
       then inr [("itemId", v)]
       else PostInto (happy pms) tr path body;
     PostOnly := PostOnly (happy pms);
     GetInto := GetInto (happy pms) |}.

(** As [happy], but the checkout reply is an empty object. *)
Definition no_order (pms : list gomap) : Client :=
  {| PostInto := fun tr path body =>
       if String.eqb path "/order/cart/c-1/checkout" then inr []
       else PostInto (happy pms) tr path body;
     PostOnly := PostOnly (happy pms);
     GetInto := GetInto (happy pms) |}.

(** As [happy], but adding an option fails with [err]. *)
Definition no_option (err : string) (pms : list gomap) : Client :=
  {| PostInto := fun tr path body =>
       if String.eqb path "/order/cart/c-1/baremetalServers/options"
       then inl err
       else PostInto (happy pms) tr path body;
     PostOnly := PostOnly (happy pms);
     GetInto := GetInto (happy pms) |}.

Definition checkouts (tr : list event) : nat :=
  List.length (requests_of Checkout tr).

(** As [happy], but the first [k] checkout calls fail. *)
Definition flaky (k : nat) (pms : list gomap) : Client :=
  {| PostInto := fun tr path body =>
       if String.eqb path "/order/cart/c-1/checkout" && (checkouts tr <? k)%nat
       then inl "locked"
       else PostInto (happy pms) tr path body;
     PostOnly := PostOnly (happy pms);
     GetInto := GetInto (happy pms) |}.

Definition noon : Time.t :=
  Time.mk (Time.Clock 2024 1 15 12 0 0) 0 Time.UTC.

(** A zone four hours west of UTC until the first Sunday of November 2023
    (the 5th) and five hours west from then on, by the day of the reading. *)
Definition eastern_2023 : Time.Location :=
  fun w =>
    (w, if (Time.month w =? 12) ||
           ((Time.month w =? 11) && (5 <=? Time.day w))
        then -18000 else -14400).

(** As [happy], but every checkout call fails while fewer than [k] have been
    made, whatever the cart. *)
Definition locked (k : nat) (pms : list gomap) : Client :=
  {| PostInto := fun tr path body =>
       match body with
       | VNil =>
           if (checkouts tr <? k)%nat then inl "locked"
           else inr [("orderId", VString "o-9")]
       | _ => PostInto (happy pms) tr path body
       end;
     PostOnly := PostOnly (happy pms);
     GetInto := GetInto (happy pms) |}.

Definition credit : gomap := [("id", VNumber "7"); ("type", VString "credit")].

(** The payment methods of the spec's example: identifiers that are strings. *)
Definition A1 : gomap := [("id", VString "A1"); ("type", VString "credit")].
Definition B2 : gomap := [("id", VString "B2"); ("type", VString "ovh-account")].

End Stub.

(* ------------------------------------------------------------------------- *)
(** ** Reading a trace *)

Module Trace.

(** The checkout attempts and the waits of a run, in order. *)
Inductive tick : Type :=
| Attempt (ok : bool)
| Wait (ns : Z).

Definition retry_view (tr : list event) : list tick :=
  flat_map (fun e => match e with
                     | ECall Checkout _ (Failed _) => [Attempt false]
                     | ECall Checkout _ _ => [Attempt true]
                     | ESleep ns => [Wait ns]
                     | _ => []
                     end) tr.

Definition failed_checkouts (tr : list event) : nat :=
  List.length (filter (fun e => match e with
                                | ECall Checkout _ (Failed _) => true
                                | _ => false
                                end) tr).

Definition checkout_succeeded (tr : list event) : bool :=
  existsb (fun e => match e with
                    | ECall Checkout _ (Failed _) => false
                    | ECall Checkout _ _ => true
                    | _ => false
                    end) tr.

(** What the retry policy prescribes after [k] failures from attempt number
    [attempt] on: every failure followed by its wait of 2^attempt seconds. *)
Fixpoint backoff (attempt : Z) (k : nat) : list tick :=
  match k with
  | O => []
  | S k' => Attempt false :: Wait (2 ^ attempt * Time.Second)
            :: backoff (attempt + 1) k'
  end.

(** 2^1 + 2^2 + ... + 2^k *)
Definition sum_pow2 (k : nat) : Z :=
  fold_right Z.add 0 (map (fun i => 2 ^ Z.of_nat i) (seq 1 k)).

End Trace.
Import Trace.


(* ------------------------------------------------------------------------- *)
(** ** The properties of a run *)

Module Props.

Definition run : Type := (list event * result unit)%type.

(** The checkout retry policy: at most three attempts, every failed attempt
    followed by its wait of 2^attempt seconds, a successful attempt last and
    followed by no wait. *)
Definition retry_policy (r : run) : Prop :=
  let tr := fst r in
  let k := failed_checkouts tr in
  let last := if checkout_succeeded tr then [Attempt true] else [] in
  (k + List.length last <= 3)%nat /\
  retry_view tr = (backoff 1 k ++ last)%list /\
  slept tr = sum_pow2 k * Time.Second.

(** A remote whose checkout fails while fewer than [k] checkout calls have
    been made, and succeeds from then on. *)
Definition fails_first (k : nat) (c : Client) : Prop :=
  forall tr cid,
    ((List.length (requests_of Checkout tr) < k)%nat ->
     exists e,
       PostInto c tr ("/order/cart/" ++ cid ++ "/checkout") VNil = inl e) /\
    ((k <= List.length (requests_of Checkout tr))%nat ->
     exists m,
       PostInto c tr ("/order/cart/" ++ cid ++ "/checkout") VNil = inr m).

(** The run came to the checkout: the option before it was added. *)
Definition reaches_checkout (r : run) : Prop :=
  exists m, replies_of AddOption (fst r) = [GotMap m].

(** What the policy makes of such a remote: [k] failures with their waits
    and the success, or three failures with their waits and no more. *)
Definition retried (k : nat) (r : run) : Prop :=
  retry_view (fst r) =
    (backoff 1 (Nat.min 3 k) ++
     (if (k <=? 2)%nat then [Attempt true] else []))%list /\
  slept (fst r) = sum_pow2 (Nat.min 3 k) * Time.Second.

(** Every checkout attempt of the run failed, and there was one. *)
Definition checkout_always_failed (r : run) : Prop :=
  requests_of Checkout (fst r) <> [] /\ checkout_succeeded (fst r) = false.

Definition retry_exhausted (r : run) : Prop :=
  List.length (requests_of Checkout (fst r)) = 3%nat /\
  snd r = Fatal "Order validation failed: failed after 3 retries".

(** *** Payment *)

Definition bodies (rqs : list request) : list value :=
  flat_map (fun rq => match rq with POST _ b => [b] | GET _ => [] end) rqs.

Definition payment_body (id ty : value) : value :=
  VMap [("paymentMethod", VMap [("id", id); ("type", ty)])].

(** The run fetched the payment methods [pms]. *)
Definition fetched (pms : list gomap) (r : run) : Prop :=
  replies_of FetchPaymentMethods (fst r) = [GotMaps pms].

(** The run made one pay call, with the [id] and [type] of [pm]. *)
Definition pays_with (pm : gomap) (r : run) : Prop :=
  bodies (requests_of Pay (fst r)) =
  [payment_body (index pm "id") (index pm "type")].

Definition fails_business_empty (r : run) : Prop :=
  snd r = Fatal "No available payment methods found." /\
  requests_of Pay (fst r) = [].

(** *** Unchecked type assertions *)

(** The assertion a reply breaks, as the message of the panic: a cart without
    a string [cartId], a server whose [itemId] is no json.Number, a first
    payment method whose [id] is no json.Number or whose [type] is no
    string. *)
Definition breaks_assertion (e : event) : option string :=
  match e with
  | ECall CreateCart _ (GotMap m) =>
      match index m "cartId" with
      | VString _ => None
      | v => Some (assertion_error v "string")
      end
  | ECall AddItem _ (GotMap m) =>
      match index m "itemId" with
      | VNumber _ => None
      | v => Some (assertion_error v "json.Number")
      end
  | ECall FetchPaymentMethods _ (GotMaps (pm :: _)) =>
      match index pm "id" with
      | VNumber _ =>
          match index pm "type" with
          | VString _ => None
          | v => Some (assertion_error v "string")
          end
      | v => Some (assertion_error v "json.Number")
      end
  | _ => None
  end.

Fixpoint assertion_failure (tr : list event) : option string :=
  match tr with
  | [] => None
  | e :: tr' =>
      match breaks_assertion e with
      | Some msg => Some msg
      | None => assertion_failure tr'
      end
  end.

(** *** The item identifier *)

(** The server reply of the run carried [v] under [itemId]. *)
Definition item_delivered (v : value) (r : run) : Prop :=
  exists m, replies_of AddItem (fst r) = [GotMap m] /\ index m "itemId" = v.

(** The run went on with the item identifier [n]. *)
Definition item_produced (n : Z) (r : run) : Prop :=
  In (EPrint ("Added Server to Cart with Item ID: " ++ itoa n ++ nl)) (fst r) /\
  exists cid body,
    hd_error (requests_of ConfigureItem (fst r)) =
    Some (POST ("/order/cart/" ++ cid ++ "/item/" ++ itoa n ++
                "/configuration") body).

(** The calls of a trace, by their steps. *)
Definition steps_of (tr : list event) : list step :=
  flat_map (fun e => match e with ECall s _ _ => [s] | _ => [] end) tr.

(** The run ended on the conversion error of [lit], with no call after the
    one that added the server. *)
Definition conversion_error (lit : string) (e : num_err) (r : run) : Prop :=
  (snd r = Fatal ("Error converting itemId to int64: " ++
                  NumError_text "ParseInt" lit e) \/
   snd r = Fatal ("Error converting itemId to integer: " ++
                  NumError_text "ParseInt" lit e)) /\
  steps_of (fst r) = [CreateCart; AssignCart; AddItem].

(** The claim of the spec about a delivered value: a well-formed integer is
    produced, anything else is a conversion error. *)
Definition item_parsed_or_rejected (v : value) (r : run) : Prop :=
  (exists n, item_produced n r) \/ (exists lit e, conversion_error lit e r).

(** What the code does with a delivered number literal. *)
Definition item_parsed (lit : string) (r : run) : Prop :=
  match ParseInt lit with
  | inl n => - 2 ^ 63 <= n < 2 ^ 63 /\ item_produced n r
  | inr e => conversion_error lit e r
  end.

(** *** Identifier threading *)

(** The identifiers a run has been given so far. *)
Record ids : Type := {
  cart_id : option string;
  item_id : option Z;
  order_id : option string }.

Definition no_ids : ids :=
  {| cart_id := None; item_id := None; order_id := None |}.

(** What a reply delivers: the string [cartId] of a created cart, the
    well-formed [itemId] of an added server, the [orderId] of a checkout that
    carries one (printed with [%v]). *)
Definition learn (k : ids) (s : step) (rp : reply) : ids :=
  match s, rp with
  | CreateCart, GotMap m =>
      match index m "cartId" with
      | VString cid =>
          {| cart_id := Some cid; item_id := item_id k;
             order_id := order_id k |}
      | _ => k
      end
  | AddItem, GotMap m =>
      match index m "itemId" with
      | VNumber lit =>
          match ParseInt lit with
          | inl n =>
              {| cart_id := cart_id k; item_id := Some n;
                 order_id := order_id k |}
          | inr _ => k
          end
      | _ => k
      end
  | Checkout, GotMap m =>
      match index m "orderId" with
      | VNil => k
      | v =>
          {| cart_id := cart_id k; item_id := item_id k;
             order_id := Some (fmt_v v) |}
      end
  | _, _ => k
  end.

Definition path_of (rq : request) : string :=
  match rq with POST p _ => p | GET p => p end.

(** The request of a step is built from the identifiers delivered before
    it, and from no other. *)
Definition permitted (k : ids) (s : step) (rq : request) : Prop :=
  match s with
  | CreateCart => path_of rq = "/order/cart"
  | AssignCart =>
      match cart_id k with
      | Some cid => rq = POST ("/order/cart/" ++ cid ++ "/assign") VNil
      | None => False
      end
  | AddItem =>
      match cart_id k with
      | Some cid => path_of rq = "/order/cart/" ++ cid ++ "/baremetalServers"
      | None => False
      end
  | ConfigureItem =>
      match cart_id k, item_id k with
      | Some cid, Some n =>
          path_of rq =
          "/order/cart/" ++ cid ++ "/item/" ++ itoa n ++ "/configuration"
      | _, _ => False
      end
  | AddOption =>
      match cart_id k, item_id k, rq with
      | Some cid, Some n, POST p (VMap kvs) =>
          p = "/order/cart/" ++ cid ++ "/baremetalServers/options" /\
          index kvs "itemId" = VInt64 n
      | _, _, _ => False
      end
  | Checkout =>
      match cart_id k with
      | Some cid => rq = POST ("/order/cart/" ++ cid ++ "/checkout") VNil
      | None => False
      end
  | FetchPaymentMethods =>
      match order_id k with
      | Some oid => rq = GET ("/me/order/" ++ oid ++ "/availablePaymentMethod")
      | None => False
      end
  | Pay =>
      match order_id k with
      | Some oid => path_of rq = "/me/order/" ++ oid ++ "/pay"
      | None => False
      end
  end.

Fixpoint threaded (k : ids) (tr : list event) : Prop :=
  match tr with
  | [] => True
  | ECall s rq rp :: tr' => permitted k s rq /\ threaded (learn k s rp) tr'
  | _ :: tr' => threaded k tr'
  end.

(** Every checkout reply of the run that succeeded carries an [orderId]. *)
Definition order_delivered (r : run) : Prop :=
  forall m, In (GotMap m) (replies_of Checkout (fst r)) ->
            index m "orderId" <> VNil.

(** *** The cart request *)

Definition cart_request (now : Time.t) : request :=
  POST "/order/cart"
    (VMap [("ovhSubsidiary", VString "US");
           ("description", VString "Automated Dedicated Server Order");
           ("expire",
            VString (Time.Format_RFC3339 (Time.AddDate now 0 1)))]).

(** One calendar month after a reading: the same day and time of day in the
    next month, or, when that month is too short, as many days into the
    month after it as the day exceeds it. *)
Definition month_later (w : Time.clock) : Time.clock :=
  let y := if Time.month w =? 12 then Time.year w + 1 else Time.year w in
  let m := if Time.month w =? 12 then 1 else Time.month w + 1 in
  if Time.day w <=? Time.daysIn m y
  then Time.Clock y m (Time.day w)
                  (Time.hour w) (Time.minute w) (Time.second w)
  else Time.Clock y (m + 1) (Time.day w - Time.daysIn m y)
                  (Time.hour w) (Time.minute w) (Time.second w).

(** RFC 3339, written out digit by digit: yyyy-mm-ddThh:mm:ss and Z or the
    signed offset hh:mm. *)
Definition digit (n : Z) : ascii := ascii_of_N (Z.to_N (48 + n)).

Definition two (n : Z) : string :=
  String (digit (n / 10)) (String (digit (n mod 10)) EmptyString).

Definition four (n : Z) : string := two (n / 100) ++ two (n mod 100).

Definition rfc3339 (w : Time.clock) (off : Z) : string :=
  four (Time.year w) ++ "-" ++ two (Time.month w) ++ "-" ++
  two (Time.day w) ++ "T" ++ two (Time.hour w) ++ ":" ++
  two (Time.minute w) ++ ":" ++ two (Time.second w) ++
  (if off =? 0 then "Z"
   else (if off <? 0 then "-" else "+") ++
        two (Z.abs off / 3600) ++ ":" ++ two (Z.abs off / 60 mod 60)).

(** A reading and offset that RFC 3339 can carry: a valid date of a
    four-digit year, an offset of whole minutes within a day. *)
Definition printable (w : Time.clock) (off : Z) : Prop :=
  Time.valid w /\ 0 <= Time.year w <= 9999 /\
  off mod 60 = 0 /\ -86400 < off < 86400.

(** The request that creates the cart, with its expiry. *)
Definition cart_expiring (expire : string) : request :=
  POST "/order/cart"
    (VMap [("ovhSubsidiary", VString "US");
           ("description", VString "Automated Dedicated Server Order");
           ("expire", VString expire)]).

(** *** Comparing two runs *)

(** The calls of a trace: step, request and reply, without the printing and
    the waiting. *)
Definition calls (tr : list event) : list event :=
  filter (fun e => match e with ECall _ _ _ => true | _ => false end) tr.

Inductive ending : Type := Returned | Exited | Panicked.

Definition ending_of {A} (r : result A) : ending :=
  match r with
  | Ret _ => Returned
  | Fatal _ => Exited
  | Panic _ => Panicked
  end.

(** The same calls with the same replies, and the same kind of end. *)
Definition same_calls (r r' : run) : Prop :=
  calls (fst r) = calls (fst r') /\ ending_of (snd r) = ending_of (snd r').

(** A remote that answers by the calls made so far. *)
Definition request_driven (c : Client) : Prop :=
  forall tr tr', calls tr = calls tr' ->
    (forall p b, PostInto c tr p b = PostInto c tr' p b) /\
    (forall p b, PostOnly c tr p b = PostOnly c tr' p b) /\
    (forall p, GetInto c tr p = GetInto c tr' p).

(** Two results that end the same way, with the same value on return. *)
Definition agree {A} (r r' : result A) : Prop :=
  match r, r' with
  | Ret a, Ret a' => a = a'
  | Fatal _, Fatal _ => True
  | Panic _, Panic _ => True
  | _, _ => False
  end.

(** Two computations that, started after the same calls, make the same
    calls and end the same way. *)
Definition sim {A} (m m' : M A) : Prop :=
  forall tr tr', calls tr = calls tr' ->
    calls (fst (m tr)) = calls (fst (m' tr')) /\
    agree (snd (m tr)) (snd (m' tr')).

(** *** The order of the calls *)

(** The calls of a complete run, in order, with [options] options added and
    [attempts] checkout attempts made. *)
Definition pipeline (options attempts : nat) : list step :=
  ([CreateCart; AssignCart; AddItem;
    ConfigureItem; ConfigureItem; ConfigureItem] ++
   repeat AddOption options ++ repeat Checkout attempts ++
   [FetchPaymentMethods; Pay])%list.

Fixpoint prefix (l full : list step) : bool :=
  match l, full with
  | [], _ => true
  | x :: l', y :: full' => step_eqb x y && prefix l' full'
  | _ :: _, [] => false
  end.

Definition attempts (tr : list event) : nat :=
  List.length (requests_of Checkout tr).

Definition paid : event := EPrint ("Order has been successfully paid." ++ nl).

(** *** Failed calls *)

(** The calls of a trace that failed: step, request and error. *)
Definition failures (tr : list event) : list (step * request * string) :=
  flat_map (fun e => match e with
                     | ECall s rq (Failed err) => [(s, rq, err)]
                     | _ => []
                     end) tr.

Definition last_call (tr : list event) : option event :=
  last (List.map Some (calls tr)) None.

(** A field of the body of a request. *)
Definition body_field (rq : request) (k : string) : value :=
  match rq with
  | POST _ (VMap kvs) => index kvs k
  | _ => VNil
  end.

(** The message of the fatal exit after a failed call: what v1main.go and
    v3main.go print for the steps they treat alike, and for the others. *)
Definition exit_message (s : step) (rq : request) (err : string) : string :=
  match s with
  | CreateCart => "Error creating cart: " ++ err
  | AssignCart => "Error assigning cart: " ++ err
  | AddItem => "Error adding server to cart: " ++ err
  | ConfigureItem =>
      "Error configuring " ++ fmt_v (body_field rq "label") ++ ": " ++ err
  | FetchPaymentMethods => "Error fetching payment methods: " ++ err
  | Pay => "Error paying for the order: " ++ err
  | AddOption | Checkout => err
  end.

Definition exit_message_v1 (s : step) (rq : request) (err : string)
  : string :=
  match s with
  | AddOption => "Error adding option: " ++ err
  | _ => exit_message s rq err
  end.

Definition exit_message_v3 (s : step) (rq : request) (err : string)
  : string :=
  match s with
  | AddOption =>
      "Error adding option with planCode " ++
      fmt_v (body_field rq "planCode") ++ ": " ++ err
  | Checkout => "Error validating order: " ++ err
  | _ => exit_message s rq err
  end.

(** The values the requests of one step carry in a field, in order. *)
Definition sent (s : step) (k : string) (tr : list event) : list value :=
  List.map (fun rq => body_field rq k) (requests_of s tr).

(** One list starts another. *)
Definition starts {A} (l full : list A) : Prop :=
  exists rest, (l ++ rest)%list = full.

(** *** The log of the retry loop *)

Definition logs (tr : list event) : list string :=
  flat_map (fun e => match e with ELog text => [text] | _ => [] end) tr.



(** *** Literals *)

Definition is_digit (ch : ascii) : bool :=
  match digit_of ch with Some _ => true | None => false end.

Fixpoint all_digits (s : string) : bool :=
  match s with
  | EmptyString => true
  | String ch s' => is_digit ch && all_digits s'
  end.

(** The number a digit sequence adds to an accumulator, read from the left
    as ParseUint reads it. *)
Fixpoint val (d : Decimal.uint) (acc : Z) : Z :=
  match d with
  | Decimal.Nil => acc
  | Decimal.D0 d => val d (10 * acc)
  | Decimal.D1 d => val d (10 * acc + 1)
  | Decimal.D2 d => val d (10 * acc + 2)
  | Decimal.D3 d => val d (10 * acc + 3)
  | Decimal.D4 d => val d (10 * acc + 4)
  | Decimal.D5 d => val d (10 * acc + 5)
  | Decimal.D6 d => val d (10 * acc + 6)
  | Decimal.D7 d => val d (10 * acc + 7)
  | Decimal.D8 d => val d (10 * acc + 8)
  | Decimal.D9 d => val d (10 * acc + 9)
  end.

(** One optional sign, then digits, and at least one. *)
Definition integer_literal (s : string) : Prop :=
  exists body,
    (s = body \/ s = "+" ++ body \/ s = "-" ++ body) /\
    body <> EmptyString /\ all_digits body = true.

(** *** Start-up *)

Definition credentials : list string :=
  ["OVH_ENDPOINT"; "OVH_APPLICATION_KEY"; "OVH_APPLICATION_SECRET";
   "OVH_CONSUMER_KEY"].

Definition please_set : string :=
  "Please set OVH_ENDPOINT, OVH_APPLICATION_KEY, " ++
  "OVH_APPLICATION_SECRET, and OVH_CONSUMER_KEY " ++
  "environment variables".

End Props.
Import Props.

(* ------------------------------------------------------------------------- *)
(** ** Weakest preconditions over runs *)

Module WP.

(** [wp m Q tr]: started on the trace [tr], [m] ends in a trace and a result
    that satisfy [Q]. *)
Definition wp {A} (m : M A) (Q : list event -> result A -> Prop)
           (tr : list event) : Prop :=
  Q (fst (m tr)) (snd (m tr)).

Definition after {A B} (k : A -> M B) (Q : list event -> result B -> Prop)
  : list event -> result A -> Prop :=
  fun tr r =>
    match r with
    | Ret a => wp (k a) Q tr
    | Fatal msg => Q tr (Fatal msg)
    | Panic msg => Q tr (Panic msg)
    end.

Lemma wp_bind {A B} (m : M A) (k : A -> M B) Q tr :
  wp m (after k Q) tr -> wp (bind m k) Q tr.
Proof.
  unfold wp, after, bind.
  destruct (m tr) as [tr' [a | msg | msg]]; simpl; auto.
Qed.

Lemma wp_ret {A} (a : A) Q tr : Q tr (Ret a) -> wp (ret a) Q tr.
Proof. exact (fun H => H). Qed.

Lemma wp_emit e Q tr : Q (tr ++ [e])%list (Ret tt) -> wp (emit e) Q tr.
Proof. exact (fun H => H). Qed.

Lemma wp_Fatalf {A} msg (Q : list event -> result A -> Prop) tr :
  Q tr (Fatal msg) -> wp (Fatalf msg) Q tr.
Proof. exact (fun H => H). Qed.

Lemma wp_panic {A} msg (Q : list event -> result A -> Prop) tr :
  Q tr (Panic msg) -> wp (panic msg) Q tr.
Proof. exact (fun H => H). Qed.

Lemma wp_as_string v (Q : list event -> result string -> Prop) tr :
  (forall s, v = VString s -> Q tr (Ret s)) ->
  ((forall s, v <> VString s) -> Q tr (Panic (assertion_error v "string"))) ->
  wp (as_string v) Q tr.
Proof.
  intros Hs Hp. unfold wp, as_string.
  destruct v; try (apply Hp; discriminate). apply Hs; reflexivity.
Qed.

Lemma wp_as_Number v (Q : list event -> result string -> Prop) tr :
  (forall lit, v = VNumber lit -> Q tr (Ret lit)) ->
  ((forall lit, v <> VNumber lit) ->
   Q tr (Panic (assertion_error v "json.Number"))) ->
  wp (as_Number v) Q tr.
Proof.
  intros Hs Hp. unfold wp, as_Number.
  destruct v; try (apply Hp; discriminate). apply Hs; reflexivity.
Qed.

Section Calls.
Variable c : Client.

Lemma wp_post_into s p b Q tr :
  (forall e, PostInto c tr p b = inl e ->
             Q (tr ++ [ECall s (POST p b) (Failed e)])%list (Ret (inl e))) ->
  (forall m, PostInto c tr p b = inr m ->
             Q (tr ++ [ECall s (POST p b) (GotMap m)])%list (Ret (inr m))) ->
  wp (post_into c s p b) Q tr.
Proof.
  unfold wp, post_into; simpl.
  destruct (PostInto c tr p b); auto.
Qed.

Lemma wp_post_only s p b Q tr :
  (forall e, PostOnly c tr p b = Some e ->
             Q (tr ++ [ECall s (POST p b) (Failed e)])%list (Ret (Some e))) ->
  (PostOnly c tr p b = None ->
   Q (tr ++ [ECall s (POST p b) Done])%list (Ret None)) ->
  wp (post_only c s p b) Q tr.
Proof.
  unfold wp, post_only; simpl.
  destruct (PostOnly c tr p b); auto.
Qed.

Lemma wp_get_into s p Q tr :
  (forall e, GetInto c tr p = inl e ->
             Q (tr ++ [ECall s (GET p) (Failed e)])%list (Ret (inl e))) ->
  (forall ms, GetInto c tr p = inr ms ->
              Q (tr ++ [ECall s (GET p) (GotMaps ms)])%list (Ret (inr ms))) ->
  wp (get_into c s p) Q tr.
Proof.
  unfold wp, get_into; simpl.
  destruct (GetInto c tr p); auto.
Qed.
End Calls.

(** One statement of the program at a time. *)
Ltac wp_step :=
  lazymatch goal with
  | |- wp (bind _ _) _ _ => apply wp_bind
  | |- wp (ret _) _ _ => apply wp_ret
  | |- wp (post_into _ _ _ _) _ _ =>
      apply wp_post_into; [intros ? ? | intros ? ?]
  | |- wp (post_only _ _ _ _) _ _ =>
      apply wp_post_only; [intros ? ? | intros ?]
  | |- wp (get_into _ _ _) _ _ =>
      apply wp_get_into; [intros ? ? | intros ? ?]
  | |- wp (emit _) _ _ => apply wp_emit
  | |- wp (Printf _) _ _ => apply wp_emit
  | |- wp (log_Printf _) _ _ => apply wp_emit
  | |- wp (Sleep _) _ _ => apply wp_emit
  | |- wp (Fatalf _) _ _ => apply wp_Fatalf
  | |- wp (panic _) _ _ => apply wp_panic
  | |- wp (as_string _) _ _ => apply wp_as_string; [intros ? ? | intros ?]
  | |- wp (as_Number _) _ _ => apply wp_as_Number; [intros ? ? | intros ?]
  | |- wp (for_range _ _) _ _ => cbn [for_range]
  | |- wp (V1.configure _ _ _ _) _ _ => unfold V1.configure
  | |- wp (V3.configure _ _ _ _) _ _ => unfold V3.configure
  | |- wp (V3.add_option _ _ _ _) _ _ => unfold V3.add_option
  | |- wp (V1.checkout_loop _ _ _ _ _ _) _ _ =>
      cbn [V1.checkout_loop Z.leb Z.compare Pos.compare Pos.compare_cont
           V1.maxRetries Z.add Pos.add Pos.succ]
  | |- wp (match ?x with _ => _ end) _ _ => destruct x eqn:?
  end;
  cbv beta iota zeta delta [after]; cbn [app fst snd]; cbv beta iota.

Ltac wp_run := repeat wp_step.

(** A property of a run, proved along the program. *)
Lemma by_wp {A} (m : M A) (P : list event * result A -> Prop) tr :
  wp m (fun t r => P (t, r)) tr -> P (m tr).
Proof. unfold wp. destruct (m tr); auto. Qed.

(** The expiry is computed once and only passed on: the runs carry it under
    a name. *)
Ltac name_expiry now :=
  let expire := fresh "expire" in
  let Hexpire := fresh "Hexpire" in
  remember (Time.Format_RFC3339 (Time.AddDate now 0 1))
    as expire eqn:Hexpire.

Ltac wp_v1 c now P :=
  apply (by_wp (V1.steps c now) P);
  unfold V1.steps, V1.configItems;
  change (Z.to_nat V1.maxRetries) with 3%nat;
  cbv zeta; name_expiry now;
  wp_run.

Ltac wp_v3 c now P :=
  apply (by_wp (V3.steps c now) P);
  unfold V3.steps, V3.configItems, V3.options;
  cbv zeta; name_expiry now;
  wp_run.

End WP.
Import WP.

(* ------------------------------------------------------------------------- *)
(** ** The checkout retry loop (v1main.go, Step 6) *)

(** What one checkout attempt of a run says of the number [k] of checkouts
    the remote fails: more than the attempts before a failure, no more than
    those before a success. *)
Ltac settle_attempt Hff H :=
  match type of H with
  | PostInto _ ?tr ("/order/cart/" ++ ?cid ++ "/checkout") VNil = ?got =>
      let i := eval cbv [List.length requests_of flat_map step_eqb app]
                 in (List.length (requests_of Checkout tr)) in
      let Hlt := fresh "Hlt" in
      let Hge := fresh "Hge" in
      destruct (Hff tr cid) as [Hlt Hge];
      change (List.length (requests_of Checkout tr)) with i in Hlt, Hge;
      lazymatch got with
      | inl _ =>
          assert (i < _)%nat
            by (apply Nat.nle_gt; intros Hle;
                destruct (Hge Hle) as [? Hm]; congruence)
      | inr _ =>
          assert (_ <= i)%nat
            by (apply Nat.nlt_ge; intros Hl;
                destruct (Hlt Hl) as [? He]; congruence)
      end;
      clear Hlt Hge H
  end.

Section Retry.
Variable c : Client.
Variable now : Time.t.

(** The fuel of [checkout_loop] only has to cover the attempts left. *)
Lemma checkout_loop_fuel cartID order :
  forall fuel attempt err tr,
    (Z.to_nat (V1.maxRetries + 1 - attempt) <= fuel)%nat ->
    V1.checkout_loop c fuel cartID attempt err order tr =
    V1.checkout_loop c (Z.to_nat (V1.maxRetries + 1 - attempt)) cartID
                     attempt err order tr.
Proof.
  induction fuel as [| fuel IH]; intros attempt err tr Hfuel.
  - replace (Z.to_nat (V1.maxRetries + 1 - attempt)) with 0%nat by lia.
    reflexivity.
  - destruct (Z.leb_spec attempt V1.maxRetries) as [Hle | Hgt].
    + replace (Z.to_nat (V1.maxRetries + 1 - attempt))
        with (S (Z.to_nat (V1.maxRetries + 1 - (attempt + 1)))) by lia.
      cbn [V1.checkout_loop].
      destruct (attempt <=? V1.maxRetries); [| reflexivity].
      unfold bind, post_into.
      destruct (PostInto c tr _ VNil); [| reflexivity].
      unfold log_Printf, Sleep, emit.
      apply IH. lia.
    + replace (Z.to_nat (V1.maxRetries + 1 - attempt)) with 0%nat by lia.
      cbn [V1.checkout_loop].
      destruct (Z.leb_spec attempt V1.maxRetries); [lia | reflexivity].
Qed.

(** In every run the attempts and waits keep to the policy: at most three
    attempts, every failure followed by its wait, a success last. *)
Lemma retry_policy_kept : retry_policy (V1.steps c now []).
Proof.
  wp_v1 c now retry_policy.
  all: cbv [retry_policy]; cbn; repeat split; try reflexivity; lia.
Qed.

(** C1.  Every run of v1main.go keeps to the retry policy: at most 3
    checkout attempts, each failed attempt i followed by a wait of 2^i
    seconds (2s, 4s, 8s), a success last and with no wait after it.  And
    against a remote whose checkout fails the first k times, a run that
    comes to the checkout does make attempt after attempt, up to 3: each
    failed attempt is followed by its wait and by the next attempt, the
    successful attempt k+1 (k <= 2) ends the loop, and the run has then
    waited 2^1 + ... + 2^k seconds in all. *)
Theorem checkout_retry_policy k :
  retry_policy (V1.steps c now []) /\
  (fails_first k c ->
   reaches_checkout (V1.steps c now []) ->
   retried k (V1.steps c now [])).
Proof.
  split; [exact retry_policy_kept |].
  intros Hff.
  wp_v1 c now (fun r : run => reaches_checkout r -> retried k r).
  all: intros [mo Hreach];
    cbv [replies_of flat_map step_eqb app fst] in Hreach;
    try discriminate Hreach; clear Hreach.
  all: repeat match goal with
              | H : PostInto _ _ ("/order/cart/" ++ _ ++ "/checkout") VNil = _
                |- _ => settle_attempt Hff H
              end.
  all: repeat match goal with
              | H : PostInto _ _ _ _ = _ |- _ => clear H
              | H : PostOnly _ _ _ _ = _ |- _ => clear H
              | H : GetInto _ _ _ = _ |- _ => clear H
              end.
  all: destruct k as [| [| [| k]]]; try (exfalso; lia).
  all: split; reflexivity.
Qed.

(** C4.  When every checkout attempt fails, the v1 engine has made exactly 3
    attempts and ends fatally with the retry-exhausted message, which names
    the attempt count and not the last error of the transport. *)
Theorem checkout_retry_exhausted :
  checkout_always_failed (V1.steps c now []) ->
  retry_exhausted (V1.steps c now []).
Proof.
  wp_v1 c now (fun r => checkout_always_failed r -> retry_exhausted r).
  all: cbv [checkout_always_failed retry_exhausted]; cbn;
    intros [Hsome Hnone]; try congruence; try discriminate.
  all: split; reflexivity.
Qed.
End Retry.

(* ------------------------------------------------------------------------- *)
(** ** Payment (Steps 7 and 8) *)

Ltac either_run c now P H :=
  destruct H as [-> | ->]; [wp_v1 c now P | wp_v3 c now P].

Section Payment.
Variable c : Client.
Variable now : Time.t.

(** C6.  When the fetched payment-method sequence is empty the engine ends
    fatally with the message for no available payment method, and has made
    no pay call. *)
Theorem empty_payment_methods_fatal r :
  runs c now r -> fetched [] r -> fails_business_empty r.
Proof.
  intros Hr.
  either_run c now (fun r => fetched [] r -> fails_business_empty r) Hr.
  all: cbv [fetched fails_business_empty]; vm_compute; intros Hf;
    try discriminate; split; reflexivity.
Qed.

(** C5, as the code has it.  When the first fetched payment method carries
    a JSON number as [id] and a string as [type], the engine makes exactly
    one pay call, with that [id] (the literal as received) and that [type];
    the methods after the first play no part. *)
Theorem pays_with_first_method r pm rest lit ty :
  runs c now r ->
  fetched (pm :: rest) r ->
  index pm "id" = VNumber lit ->
  index pm "type" = VString ty ->
  pays_with pm r.
Proof.
  intros Hr Hf Hid Hty. revert Hf.
  either_run c now (fun r => fetched (pm :: rest) r -> pays_with pm r) Hr.
  all: cbv [fetched pays_with payment_body]; cbn [fst snd]; intros Hf.
  all: try (vm_compute in Hf; discriminate).
  all: cbn in Hf; injection Hf as -> ->.
  all: try congruence.
  all: rewrite Hid, Hty in *; cbn; congruence.
Qed.
End Payment.

(** C5, as stated, fails on its own example: the identifiers ["A1"] and
    ["B2"] are strings, the assertion [.(json.Number)] panics and no pay call
    is made. *)
Lemma string_payment_id_panics :
  let r := V1.steps (Stub.happy [Stub.A1; Stub.B2]) Stub.noon [] in
  fetched [Stub.A1; Stub.B2] r /\
  ~ pays_with Stub.A1 r /\
  requests_of Pay (fst r) = [] /\
  snd r = Panic "interface conversion: interface {} is string, not json.Number".
Proof.
  vm_compute. repeat split; try reflexivity. discriminate.
Qed.

Lemma pays_with_first_method_witness :
  let r := V1.steps (Stub.happy [Stub.credit; Stub.B2]) Stub.noon [] in
  pays_with Stub.credit r.
Proof.
  apply (pays_with_first_method (Stub.happy [Stub.credit; Stub.B2]) Stub.noon
           _ Stub.credit [Stub.B2] "7" "credit").
  - left; reflexivity.
  - reflexivity.
  - reflexivity.
  - reflexivity.
Defined.

Lemma empty_payment_methods_fatal_witness :
  fails_business_empty (V3.steps (Stub.happy []) Stub.noon []).
Proof.
  apply (empty_payment_methods_fatal (Stub.happy []) Stub.noon).
  - right; reflexivity.
  - reflexivity.
Defined.

Lemma locked_fails_first k pms : fails_first k (Stub.locked k pms).
Proof.
  intros tr cid. cbn [PostInto Stub.locked]. unfold Stub.checkouts.
  destruct (Nat.ltb_spec (List.length (requests_of Checkout tr)) k);
    split; intros Hk; try lia; eexists; reflexivity.
Qed.

Lemma checkout_retry_policy_witness :
  retry_view (fst (V1.steps (Stub.locked 2 [Stub.credit]) Stub.noon [])) =
    [Attempt false; Wait (2 * Time.Second);
     Attempt false; Wait (4 * Time.Second); Attempt true] /\
  slept (fst (V1.steps (Stub.locked 2 [Stub.credit]) Stub.noon [])) =
    6 * Time.Second.
Proof.
  apply (proj2 (checkout_retry_policy
                  (Stub.locked 2 [Stub.credit]) Stub.noon 2)).
  - apply locked_fails_first.
  - exists []. vm_compute. reflexivity.
Defined.

Lemma checkout_retry_exhausted_witness :
  retry_exhausted (V1.steps (Stub.flaky 3 [Stub.credit]) Stub.noon []).
Proof.
  apply checkout_retry_exhausted.
  split; [discriminate | reflexivity].
Defined.

(* ------------------------------------------------------------------------- *)
(** ** Unchecked type assertions *)

Section Assertions.
Variable c : Client.
Variable now : Time.t.

(** C10.  The fields other than the parsed literal are read by unchecked
    type assertions: a cart reply without a string [cartId], a server reply
    whose [itemId] is no JSON number, a first payment method whose [id] is
    no JSON number or whose [type] is no string ends the run in the
    runtime's panic, not in a fatal message that names the step. *)
Theorem broken_assertion_panics r msg :
  runs c now r -> assertion_failure (fst r) = Some msg -> snd r = Panic msg.
Proof.
  intros Hr.
  either_run c now
    (fun r : run => assertion_failure (fst r) = Some msg -> snd r = Panic msg) Hr.
  all: cbn [fst snd assertion_failure breaks_assertion]; intros Hfail.
  all: repeat (match type of Hfail with
               | context [index ?m ?k] =>
                   match goal with
                   | H : index m k = _ |- _ => rewrite H in Hfail
                   end
               end;
               cbn [assertion_failure breaks_assertion] in Hfail).
  all: try discriminate Hfail.
  all: match type of Hfail with
       | context [match index ?m ?k with _ => _ end] =>
           destruct (index m k)
       end.
  all: try (injection Hfail as <-; reflexivity).
  all: exfalso;
    match goal with H : forall s, _ <> _ |- _ => apply (H _ eq_refl) end.
Qed.
End Assertions.

Lemma broken_assertion_panics_witness :
  snd (V3.steps (Stub.item (VString "12345") [Stub.credit]) Stub.noon []) =
  Panic "interface conversion: interface {} is string, not json.Number".
Proof.
  apply (broken_assertion_panics
           (Stub.item (VString "12345") [Stub.credit]) Stub.noon).
  - right; reflexivity.
  - reflexivity.
Defined.

(* ------------------------------------------------------------------------- *)
(** ** The item identifier (Step 3) *)

Lemma parse_digits_range s :
  forall n r, 0 <= n < 2 ^ 64 -> parse_digits s n = inl r -> 0 <= r < 2 ^ 64.
Proof.
  induction s as [| ch s IH]; intros n r Hn H; cbn [parse_digits] in H.
  - injection H as <-. assumption.
  - destruct (digit_of ch) as [d |]; [| discriminate].
    destruct (n >=? (2 ^ 64 - 1) / 10 + 1); [discriminate |].
    cbv zeta in H.
    destruct ((wrap_u64 (wrap_u64 (n * 10) + d) <? wrap_u64 (n * 10)) ||
              (wrap_u64 (wrap_u64 (n * 10) + d) >? 2 ^ 64 - 1));
      [discriminate |].
    apply (IH _ _ (Z.mod_pos_bound _ (2 ^ 64) eq_refl) H).
Qed.

Lemma ParseInt_int64 s n : ParseInt s = inl n -> - 2 ^ 63 <= n < 2 ^ 63.
Proof.
  unfold ParseInt. destruct s as [| ch s]; [discriminate |]. cbv zeta.
  match goal with |- context [ParseUint ?x] => generalize x; intros rest end.
  unfold ParseUint.
  assert (Hr : forall u, parse_digits rest 0 = inl u -> 0 <= u < 2 ^ 64)
    by (intros u; apply parse_digits_range; lia).
  destruct rest as [| ch' rest']; [discriminate |].
  destruct (parse_digits (String ch' rest') 0) as [u | [|]];
    [specialize (Hr u eq_refl) | discriminate |].
  - destruct (Ascii.eqb ch "-"); cbn [negb andb].
    + destruct (Z.gtb_spec u (2 ^ 63)); [discriminate |].
      intros [= <-]. lia.
    + destruct (Z.geb_spec u (2 ^ 63)); [discriminate |].
      intros [= <-]. lia.
  - destruct (Ascii.eqb ch "-"); cbn; discriminate.
Qed.

Ltac in_trace := cbn [In fst]; repeat first [left; reflexivity | right].

Section Item.
Variable c : Client.
Variable now : Time.t.

Lemma item_parsed_holds r lit :
  runs c now r -> item_delivered (VNumber lit) r -> item_parsed lit r.
Proof.
  intros Hr.
  either_run c now
    (fun r : run => item_delivered (VNumber lit) r -> item_parsed lit r) Hr.
  all: intros [m' [Hrep Hidx]];
    cbv [replies_of flat_map step_eqb app fst] in Hrep;
    try discriminate Hrep.
  all: injection Hrep as <-.
  all: try match goal with
           | H : forall l, index ?m ?k <> VNumber l |- _ =>
               now destruct (H _ Hidx)
           end.
  all: match goal with
       | H : index ?m "itemId" = VNumber ?l |- _ =>
           rewrite H in Hidx; injection Hidx as <-
       end.
  all: unfold item_parsed;
    match goal with H : ParseInt _ = _ |- _ => rewrite H end.
  all: try (split; [eapply ParseInt_int64; eassumption |];
            unfold item_produced; split;
            [in_trace
            | cbv [requests_of flat_map step_eqb app hd_error fst];
              eexists; eexists; reflexivity]).
  all: unfold conversion_error; split;
    [first [left; reflexivity | right; reflexivity] | reflexivity].
Qed.

(** C3, as the code has it.  When the server reply carries a JSON number as
    [itemId], its literal goes through ParseInt: a well-formed base-10
    integer of 64 bits is the item identifier the run goes on with, printed
    and used in the path of the configuration call (the literal 12345 gives
    12345); any other literal ends the run in the conversion error, whose
    message differs from that of a failed call, and the call that added the
    server is the last. *)
Theorem item_number_parsed r lit :
  runs c now r ->
  item_delivered (VNumber lit) r ->
  (lit = "12345" -> item_produced 12345 r) /\ item_parsed lit r.
Proof.
  intros Hr Hd. split; [| apply item_parsed_holds; assumption].
  intros ->. exact (proj2 (item_parsed_holds r "12345" Hr Hd)).
Qed.
End Item.


Lemma item_number_parsed_witness :
  item_produced 12345
    (V1.steps (Stub.item (VNumber "12345") [Stub.credit]) Stub.noon []).
Proof.
  refine (proj1 (item_number_parsed
                   (Stub.item (VNumber "12345") [Stub.credit]) Stub.noon
                   (V1.steps (Stub.item (VNumber "12345") [Stub.credit])
                             Stub.noon [])
                   "12345" _ _) eq_refl).
  - left; reflexivity.
  - exists [("itemId", VNumber "12345")]. split; vm_compute; reflexivity.
Defined.

(** C3, as stated, fails on a value that is no JSON number: the assertion
    [.(json.Number)] panics before any conversion is tried. *)
Lemma non_number_item_panics :
  let r := V1.steps (Stub.item (VString "abc") [Stub.credit]) Stub.noon [] in
  item_delivered (VString "abc") r /\
  ~ item_parsed_or_rejected (VString "abc") r /\
  snd r = Panic "interface conversion: interface {} is string, not json.Number".
Proof.
  cbv zeta. split; [| split].
  - exists [("itemId", VString "abc")]. split; vm_compute; reflexivity.
  - intros [[n [H _]] | [lit [e [[H | H] _]]]].
    + remember (itoa n) as d. vm_compute in H.
      repeat destruct H as [H | H]; try discriminate H; auto.
    + vm_compute in H. discriminate H.
    + vm_compute in H. discriminate H.
  - vm_compute. reflexivity.
Qed.

(* ------------------------------------------------------------------------- *)
(** ** Identifier threading *)

(** Evaluate [threaded] along a trace, with the facts the run collected. *)
Ltac thread_step :=
  cbn [threaded learn permitted cart_id item_id order_id path_of];
  repeat match goal with
         | H : index ?m ?k = _ |- context [index ?m ?k] => rewrite H
         | H : ParseInt ?l = _ |- context [ParseInt ?l] => rewrite H
         end.

Section Threading.
Variable c : Client.
Variable now : Time.t.

(** C7, as the code has it.  In a run whose successful checkout reply
    carries an [orderId], every call is built from the identifiers the
    earlier replies delivered (the string [cartId], the parsed [itemId],
    the printed [orderId]) and from no others, and no call that needs an
    identifier is made before a reply has delivered it. *)
Theorem identifiers_threaded r :
  runs c now r -> order_delivered r -> threaded no_ids (fst r).
Proof.
  intros Hr.
  either_run c now
    (fun r : run => order_delivered r -> threaded no_ids (fst r)) Hr.
  all: unfold order_delivered;
    cbv [replies_of flat_map step_eqb app fst In]; intros Hd.
  all: unfold no_ids; repeat (progress thread_step).
  all: try match goal with
           | |- context [match index ?m "orderId" with _ => _ end] =>
               let E := fresh "E" in
               destruct (index m "orderId") eqn:E;
               [exfalso; apply (Hd m); [tauto | exact E] | ..]
           end.
  all: repeat (progress thread_step).
  all: cbn [index String.eqb Ascii.eqb Bool.eqb]; tauto.
Qed.
End Threading.

Lemma identifiers_threaded_witness :
  threaded no_ids (fst (V3.steps (Stub.happy [Stub.credit]) Stub.noon [])).
Proof.
  apply (identifiers_threaded (Stub.happy [Stub.credit]) Stub.noon).
  - right; reflexivity.
  - intros m H. vm_compute in H. destruct H as [H | []].
    injection H as <-. discriminate.
Defined.

(** C7, as stated, fails when the checkout reply carries no [orderId]: the
    payment methods are asked for under the printed nil. *)
Lemma missing_order_id_still_used :
  let r := V1.steps (Stub.no_order [Stub.credit]) Stub.noon [] in
  replies_of Checkout (fst r) = [GotMap []] /\
  requests_of FetchPaymentMethods (fst r) =
    [GET "/me/order/<nil>/availablePaymentMethod"] /\
  ~ threaded no_ids (fst r).
Proof.
  vm_compute. repeat split. tauto.
Qed.

(* ------------------------------------------------------------------------- *)
(** ** The cart expiry (Step 1) *)

Lemma daysIn_bounds m y : 28 <= Time.daysIn m y <= 31.
Proof.
  unfold Time.daysIn.
  destruct (m =? 2); [destruct (Time.isLeap y); lia |].
  destruct ((m =? 4) || (m =? 6) || (m =? 9) || (m =? 11)); lia.
Qed.

(** A check that holds on every number of a range holds on each. *)
Lemma on_range (P : Z -> bool) lo n :
  forallb P (List.map (fun i => lo + Z.of_nat i) (seq 0 (Z.to_nat n))) = true ->
  forall x, lo <= x < lo + n -> P x = true.
Proof.
  intros Hall x Hx. rewrite forallb_forall in Hall. apply Hall.
  apply in_map_iff. exists (Z.to_nat (x - lo)). split; [lia |].
  apply in_seq. lia.
Qed.

Lemma appendInt_two n : 0 <= n < 100 -> Time.appendInt n 2 = two n.
Proof.
  intros Hn. apply String.eqb_eq.
  apply (on_range (fun n => String.eqb (Time.appendInt n 2) (two n)) 0 100);
    [vm_compute; reflexivity | lia].
Qed.

Lemma appendInt_four n : 0 <= n <= 9999 -> Time.appendInt n 4 = four n.
Proof.
  intros Hn. apply String.eqb_eq.
  apply (on_range (fun n => String.eqb (Time.appendInt n 4) (four n)) 0 10000);
    [vm_compute; reflexivity | lia].
Qed.

(** Format(time.RFC3339) writes RFC 3339. *)
Lemma Format_is_rfc3339 w off loc :
  printable w off -> Time.Format_RFC3339 (Time.mk w off loc) = rfc3339 w off.
Proof.
  intros ((Hm & Hd & Hh & Hmi & Hs) & Hy & Hmod & Hoff).
  pose proof (daysIn_bounds (Time.month w) (Time.year w)) as Hb.
  unfold Time.Format_RFC3339, rfc3339; cbn [Time.wall Time.offset].
  rewrite appendInt_four by lia. rewrite !appendInt_two by lia.
  do 11 f_equal.
  assert (Hq : off = 60 * (off / 60)) by (apply Z.div_exact; lia).
  assert (Hr : -1440 < off / 60 < 1440) by lia.
  revert Hq Hr. generalize (off / 60). intros q -> Hq. clear Hmod Hoff.
  apply String.eqb_eq.
  apply (on_range
           (fun q =>
              String.eqb
                (if 60 * q =? 0 then "Z"
                 else
                   let zone := Z.quot (60 * q) 60 in
                   (if zone <? 0 then "-" else "+") ++
                   Time.appendInt (Z.quot (Z.abs zone) 60) 2 ++ ":" ++
                   Time.appendInt (Z.rem (Z.abs zone) 60) 2)
                (if 60 * q =? 0 then "Z"
                 else (if 60 * q <? 0 then "-" else "+") ++
                      two (Z.abs (60 * q) / 3600) ++ ":" ++
                      two (Z.abs (60 * q) / 60 mod 60)))
           (-1439) 2879); [vm_compute; reflexivity | lia].
Qed.

(** AddDate(0, 1, 0) asks the location for the reading one calendar month
    on. *)
Lemma AddDate_month_later x :
  Time.valid (Time.wall x) ->
  Time.AddDate x 0 1 =
  Time.mk (fst (Time.location x (month_later (Time.wall x))))
          (snd (Time.location x (month_later (Time.wall x))))
          (Time.location x).
Proof.
  destruct x as [[y m d hh mm ss] off loc].
  unfold Time.valid, month_later, Time.AddDate, Time.Date;
    cbn [Time.wall Time.location Time.year Time.month Time.day Time.hour
         Time.minute Time.second].
  intros (Hm & Hd & _).
  assert (Hcase : m = 12 \/ 1 <= m <= 11) by lia.
  destruct Hcase as [-> | Hm'].
  - change ((12 + 1 - 1) / 12) with 1. change ((12 + 1 - 1) mod 12 + 1) with 1.
    change (12 =? 12) with true. cbv iota zeta.
    replace (y + 0 + 1) with (y + 1) by lia.
    change (Time.daysIn 1 (y + 1)) with 31.
    change (Time.daysIn 12 y) with 31 in Hd.
    destruct (Z.leb_spec d 31); [reflexivity | lia].
  - replace ((m + 1 - 1) / 12) with 0 by (symmetry; apply Z.div_small; lia).
    replace ((m + 1 - 1) mod 12 + 1) with (m + 1)
      by (rewrite Z.mod_small; lia).
    replace (m =? 12) with false by (symmetry; apply Z.eqb_neq; lia).
    cbv iota zeta. replace (y + 0 + 0) with y by lia.
    destruct (Z.leb_spec d (Time.daysIn (m + 1) y)) as [Hle | Hgt];
      [reflexivity |].
    assert (Hm11 : m + 1 <> 12).
    { intros E. replace (m + 1) with 12 in Hgt by lia.
      change (Time.daysIn 12 y) with 31 in Hgt.
      pose proof (daysIn_bounds m y). lia. }
    replace ((m + 1) / 12) with 0 by (symmetry; apply Z.div_small; lia).
    replace ((m + 1) mod 12 + 1) with (m + 1 + 1)
      by (rewrite Z.mod_small; lia).
    replace (y + 0) with y by lia. reflexivity.
Qed.

Section Expiry.
Variable c : Client.
Variable now : Time.t.

Lemma first_request_is_cart r :
  runs c now r -> hd_error (requests (fst r)) = Some (cart_request now).
Proof.
  intros Hr.
  either_run c now
    (fun r : run => hd_error (requests (fst r)) = Some (cart_request now))
    Hr.
  all: unfold cart_request;
    match goal with H : _ = Time.Format_RFC3339 _ |- _ => rewrite <- H end;
    reflexivity.
Qed.

(** C9.  The first request of a run creates the cart with, as [expire], the
    current time plus one calendar month in the location of the clock (the
    same day and time of day of the next month, carried into the month after
    when that month is too short), written as RFC 3339. *)
Theorem cart_expires_in_a_month r w off :
  runs c now r ->
  Time.valid (Time.wall now) ->
  Time.location now (month_later (Time.wall now)) = (w, off) ->
  printable w off ->
  hd_error (requests (fst r)) = Some (cart_expiring (rfc3339 w off)).
Proof.
  intros Hr Hv Hloc Hp.
  rewrite (first_request_is_cart r Hr). unfold cart_request, cart_expiring.
  rewrite (AddDate_month_later now Hv), Hloc. cbn [fst snd].
  rewrite (Format_is_rfc3339 w off _ Hp). reflexivity.
Qed.
End Expiry.

Lemma cart_expires_in_a_month_witness :
  hd_error (requests (fst (V1.steps (Stub.happy []) Stub.noon []))) =
  Some (cart_expiring "2024-02-15T12:00:00Z").
Proof.
  apply (cart_expires_in_a_month (Stub.happy []) Stub.noon _
           (Time.Clock 2024 2 15 12 0 0) 0).
  - left; reflexivity.
  - unfold Time.valid; vm_compute; intuition discriminate.
  - reflexivity.
  - unfold printable, Time.valid; vm_compute; intuition discriminate.
Defined.

(** One month after noon of October 31 in a zone that changes its offset on
    November 5 is noon of December 1 at the new offset. *)
Example expiry_across_a_zone_change :
  hd_error
    (requests
       (fst (V3.steps (Stub.happy [])
               (Time.mk (Time.Clock 2023 10 31 12 0 0) (-14400)
                        Stub.eastern_2023) []))) =
  Some (cart_expiring "2023-12-01T12:00:00-05:00").
Proof. vm_compute. reflexivity. Qed.

(* ------------------------------------------------------------------------- *)
(** ** Reporting a failed option (Step 5) *)

(** C8 on v1main.go.  When the option call fails the program exits with
    "Error adding option:" and the error of the call; the plan code of the
    option that failed is in the request, and not in the message. *)
Lemma v1_option_failure_unnamed :
  let r := V1.steps (Stub.no_option "boom" [Stub.credit]) Stub.noon [] in
  List.map (fun b => match b with VMap kvs => index kvs "planCode" | _ => VNil end)
           (bodies (requests_of AddOption (fst r))) =
    [VString "vrack-bandwidth-1000-24rise-us"] /\
  snd r = Fatal "Error adding option: boom" /\
  String.index 0 "vrack-bandwidth-1000-24rise-us" "Error adding option: boom"
    = None.
Proof. vm_compute. repeat split. Qed.
(* ------------------------------------------------------------------------- *)
(** ** The two programs against the one workflow *)

Lemma calls_app tr tr' : calls (tr ++ tr') = (calls tr ++ calls tr')%list.
Proof. apply filter_app. Qed.

Lemma sim_sym {A} (m m' : M A) : sim m m' -> sim m' m.
Proof.
  intros H tr tr' Hc. destruct (H tr' tr (eq_sym Hc)) as [H1 H2].
  split; [now symmetry |].
  destruct (snd (m tr')), (snd (m' tr)); cbn in *; auto.
Qed.

Lemma sim_ret {A} (a : A) : sim (ret a) (ret a).
Proof. intros tr tr' Hc. split; [exact Hc | reflexivity]. Qed.

Lemma sim_bind {A B} (m m' : M A) (k k' : A -> M B) :
  sim m m' -> (forall a, sim (k a) (k' a)) -> sim (bind m k) (bind m' k').
Proof.
  intros Hm Hk tr tr' Hc. destruct (Hm tr tr' Hc) as [H1 H2].
  unfold bind.
  destruct (m tr) as [t [a | msg | msg]], (m' tr') as [t' [a' | msg' | msg']];
    cbn [fst snd agree] in *; try contradiction; try (split; [exact H1 | exact I]).
  subst a'. apply Hk. exact H1.
Qed.

Lemma sim_Fatalf {A} msg msg' : sim (@Fatalf A msg) (Fatalf msg').
Proof. intros tr tr' Hc. split; [exact Hc | exact I]. Qed.

Lemma sim_panic {A} msg msg' : sim (@panic A msg) (panic msg').
Proof. intros tr tr' Hc. split; [exact Hc | exact I]. Qed.

Lemma sim_silent e e' :
  calls [e] = [] -> calls [e'] = [] -> sim (emit e) (emit e').
Proof.
  intros He He' tr tr' Hc. cbn [emit fst snd agree].
  rewrite !calls_app, He, He', Hc. split; reflexivity.
Qed.

Lemma sim_as_string v : sim (as_string v) (as_string v).
Proof. destruct v; first [apply sim_ret | apply sim_panic]. Qed.

Lemma sim_as_Number v : sim (as_Number v) (as_Number v).
Proof. destruct v; first [apply sim_ret | apply sim_panic]. Qed.

Lemma sim_for_range {A} (xs : list A) (body body' : A -> M unit) :
  (forall x, sim (body x) (body' x)) ->
  sim (for_range xs body) (for_range xs body').
Proof.
  intros Hb. induction xs as [| x xs IH]; cbn [for_range].
  - apply sim_ret.
  - apply sim_bind; [apply Hb | intros _; exact IH].
Qed.

(** Reading the right-hand computation up to the monad laws. *)
Lemma sim_assoc_r {A B C} (m : M C) (m1 : M A) (f : A -> M B) (g : B -> M C) :
  sim m (bind m1 (fun x => bind (f x) g)) -> sim m (bind (bind m1 f) g).
Proof.
  intros H tr tr' Hc. specialize (H tr tr' Hc). unfold bind in *.
  destruct (m1 tr') as [t [a | msg | msg]]; exact H.
Qed.

Lemma sim_ret_r {A C} (m : M C) (a : A) (g : A -> M C) :
  sim m (g a) -> sim m (bind (ret a) g).
Proof. intros H. exact H. Qed.

Lemma sim_Fatalf_r {A C} (m : M C) msg (g : A -> M C) :
  sim m (Fatalf msg) -> sim m (bind (Fatalf msg) g).
Proof. intros H. exact H. Qed.

Lemma sim_silent_r {C} (m : M C) (e : event) (g : unit -> M C) :
  calls [e] = [] -> sim m (g tt) -> sim m (bind (emit e) g).
Proof.
  intros He H tr tr' Hc. unfold bind, emit.
  apply H. rewrite calls_app, He, app_nil_r. exact Hc.
Qed.

Section Simulation.
Variable c : Client.
Hypothesis Hrd : request_driven c.

Lemma sim_post_into s p b : sim (post_into c s p b) (post_into c s p b).
Proof.
  intros tr tr' Hc. unfold post_into; cbn [fst snd agree].
  destruct (Hrd _ _ Hc) as (Hp & _ & _). rewrite (Hp p b).
  rewrite !calls_app, Hc. split; reflexivity.
Qed.

Lemma sim_post_only s p b : sim (post_only c s p b) (post_only c s p b).
Proof.
  intros tr tr' Hc. unfold post_only; cbn [fst snd agree].
  destruct (Hrd _ _ Hc) as (_ & Hp & _). rewrite (Hp p b).
  rewrite !calls_app, Hc. split; reflexivity.
Qed.

Lemma sim_get_into s p : sim (get_into c s p) (get_into c s p).
Proof.
  intros tr tr' Hc. unfold get_into; cbn [fst snd agree].
  destruct (Hrd _ _ Hc) as (_ & _ & Hp). rewrite (Hp p).
  rewrite !calls_app, Hc. split; reflexivity.
Qed.

(** The retry loop is the same loop in v1main.go and in the workflow. *)
Lemma sim_checkout_loop maxRetries cartID :
  forall fuel attempt err order,
    sim (Workflow.checkout_loop c maxRetries fuel cartID attempt err order)
        (Workflow.checkout_loop c maxRetries fuel cartID attempt err order).
Proof.
  induction fuel as [| fuel IH]; intros attempt err order;
    cbn [Workflow.checkout_loop].
  - apply sim_ret.
  - destruct (attempt <=? maxRetries); [| apply sim_ret].
    apply sim_bind; [apply sim_post_into |].
    intros [e | m]; [| apply sim_ret].
    apply sim_bind; [apply sim_silent; reflexivity | intros _].
    apply sim_bind; [apply sim_silent; reflexivity | intros _].
    apply IH.
Qed.

Ltac sim_call :=
  first [ apply sim_post_into | apply sim_post_only | apply sim_get_into
        | apply sim_as_string | apply sim_as_Number
        | apply sim_silent; reflexivity ].

(** One statement of the program against the workflow's. *)
Ltac sim_step :=
  cbv beta;
  lazymatch goal with
  | |- sim _ (bind (bind _ _) _) => apply sim_assoc_r
  | |- sim _ (bind (ret _) _) => apply sim_ret_r; cbn [fst snd]
  | |- sim _ (bind (Fatalf _) _) => apply sim_Fatalf_r
  | |- sim (Fatalf _) (Fatalf _) => apply sim_Fatalf
  | |- sim (Fatalf _) (bind _ _) => apply sim_silent_r; [reflexivity |]
  | |- sim (bind (for_range _ _) _) (bind (for_range _ _) _) =>
      apply sim_bind; [apply sim_for_range; intros ? | intros ?]
  | |- sim _ (bind (for_range _ _) _) => cbn [for_range]
  | |- sim (V1.configure _ _ _ _) _ =>
      unfold V1.configure, Workflow.configure
  | |- sim (V3.configure _ _ _ _) _ =>
      unfold V3.configure, Workflow.configure
  | |- sim (V3.add_option _ _ _ _) _ =>
      unfold V3.add_option, Workflow.add_option
  | |- sim _ (bind (Workflow.add_option _ _ _ _) _) =>
      unfold Workflow.add_option
  | |- sim (bind (V1.checkout_loop _ ?f ?cid ?a ?e ?o) _) _ =>
      apply sim_bind; [exact (sim_checkout_loop 3 cid f a e o) | intros ?]
  | |- sim _ (bind (Workflow.checkout_loop _ _ _ _ _ _ _) _) =>
      cbn [Workflow.checkout_loop Z.leb Z.compare Pos.compare
           Pos.compare_cont]
  | |- sim (bind _ _) (bind _ _) => apply sim_bind; [sim_call | intros ?]
  | |- sim (match ?x with _ => _ end) _ => destruct x
  | |- sim (Printf _) _ => apply sim_silent; reflexivity
  end.

Lemma v1_sim now : sim (V1.steps c now) (Workflow.v1 c now).
Proof.
  unfold V1.steps, Workflow.v1, Workflow.steps.
  change (Z.to_nat V1.maxRetries) with 3%nat.
  change (Z.to_nat 3) with 3%nat.
  repeat sim_step.
Qed.

Lemma v3_sim now : sim (V3.steps c now) (Workflow.v3 c now).
Proof.
  unfold V3.steps, Workflow.v3, Workflow.steps.
  change (Z.to_nat 1) with 1%nat.
  repeat sim_step.
Qed.
End Simulation.

Lemma sim_same_calls (m m' : M unit) : sim m m' -> same_calls (m []) (m' []).
Proof.
  intros H. destruct (H [] [] eq_refl) as [H1 H2]. split; [exact H1 |].
  destruct (snd (m [])), (snd (m' [])); cbn in *; auto; contradiction.
Qed.

(** C2, as the code has it.  The programs differ in the operating-system
    value, in the options and in the checkout: v1 retries up to 3 times, v3
    makes one attempt.  Against a remote that answers by the calls made so
    far, each program makes the calls of the one workflow run on its own
    value, options and number of attempts, gets the same replies and ends the
    same way (return, exit or panic). *)
Theorem variants_are_one_workflow c now :
  request_driven c ->
  same_calls (V1.steps c now []) (Workflow.v1 c now []) /\
  same_calls (V3.steps c now []) (Workflow.v3 c now []).
Proof.
  intros Hrd. split; apply sim_same_calls;
    [apply v1_sim | apply v3_sim]; exact Hrd.
Qed.

Lemma happy_request_driven pms : request_driven (Stub.happy pms).
Proof. intros tr tr' _. repeat split. Qed.

Lemma variants_are_one_workflow_witness :
  same_calls (V1.steps (Stub.happy [Stub.credit]) Stub.noon [])
             (Workflow.v1 (Stub.happy [Stub.credit]) Stub.noon []) /\
  same_calls (V3.steps (Stub.happy [Stub.credit]) Stub.noon [])
             (Workflow.v3 (Stub.happy [Stub.credit]) Stub.noon []).
Proof.
  apply (variants_are_one_workflow (Stub.happy [Stub.credit]) Stub.noon).
  intros tr tr' _. repeat split.
Defined.

(** C2, as stated, fails at the checkout: against a remote whose first
    checkout fails, v1 waits two seconds, tries again and goes on to pay;
    v3 exits on the first failure, so it is not the workflow of v1 run on
    other data. *)
Lemma v3_does_not_retry :
  let c := Stub.flaky 1 [Stub.credit] in
  retry_view (fst (V1.steps c Stub.noon [])) =
    [Attempt false; Wait 2000000000; Attempt true] /\
  snd (V1.steps c Stub.noon []) = Ret tt /\
  retry_view (fst (V3.steps c Stub.noon [])) = [Attempt false] /\
  snd (V3.steps c Stub.noon []) = Fatal "Error validating order: locked" /\
  ~ same_calls (V3.steps c Stub.noon []) (Workflow.v3_as_claimed c Stub.noon []).
Proof.
  vm_compute. repeat split. intros [_ H]. discriminate H.
Qed.

(* ------------------------------------------------------------------------- *)
(** ** The order of the calls *)

Section Order.
Variable c : Client.
Variable now : Time.t.

(** X1.  The calls of a run of v1main.go come in the order of the pipeline:
    create, assign, add the server, three configurations, one option, the
    checkout attempts, the payment methods, the payment.  A run stops
    somewhere along it and never goes back. *)
Theorem v1_calls_in_order :
  prefix (steps_of (fst (V1.steps c now [])))
         (pipeline 1 (Nat.max 1 (attempts (fst (V1.steps c now []))))) = true.
Proof.
  wp_v1 c now (fun r : run =>
    prefix (steps_of (fst r)) (pipeline 1 (Nat.max 1 (attempts (fst r))))
    = true).
  all: reflexivity.
Qed.

(** X2.  The calls of a run of v3main.go come in the order of the pipeline
    with four options and a single checkout. *)
Theorem v3_calls_in_order :
  prefix (steps_of (fst (V3.steps c now []))) (pipeline 4 1) = true.
Proof.
  wp_v3 c now (fun r : run =>
    prefix (steps_of (fst r)) (pipeline 4 1) = true).
  all: reflexivity.
Qed.

(** X3.  A run returns only after the whole pipeline: every step was
    called, the checkout between one and three times, no call failed but
    checkout attempts before the one that succeeded, the payment call
    succeeded and the last thing done is to print that the order has been
    paid. *)
Theorem returns_only_after_paying r :
  runs c now r ->
  snd r = Ret tt ->
  (1 <= attempts (fst r) <= 3)%nat /\
  (steps_of (fst r) = pipeline 1 (attempts (fst r)) \/
   steps_of (fst r) = pipeline 4 1) /\
  List.map (fun f => fst (fst f)) (failures (fst r)) =
    repeat Checkout (attempts (fst r) - 1) /\
  last (fst r) paid = paid /\
  exists m, replies_of Pay (fst r) = [GotMap m].
Proof.
  intros Hr.
  either_run c now (fun r : run => snd r = Ret tt ->
    (1 <= attempts (fst r) <= 3)%nat /\
    (steps_of (fst r) = pipeline 1 (attempts (fst r)) \/
     steps_of (fst r) = pipeline 4 1) /\
    List.map (fun f => fst (fst f)) (failures (fst r)) =
      repeat Checkout (attempts (fst r) - 1) /\
    last (fst r) paid = paid /\
    exists m, replies_of Pay (fst r) = [GotMap m]) Hr.
  all: cbn [snd]; intros Hret; try discriminate Hret.
  all: repeat split; try (left; reflexivity); try (right; reflexivity);
    try reflexivity;
    try (cbv [attempts requests_of flat_map step_eqb app fst List.length];
         lia).
  all: eexists; reflexivity.
Qed.
End Order.

Lemma returns_only_after_paying_witness :
  (1 <= attempts (fst (V1.steps (Stub.flaky 2 [Stub.credit]) Stub.noon []))
   <= 3)%nat /\
  (steps_of (fst (V1.steps (Stub.flaky 2 [Stub.credit]) Stub.noon [])) =
     pipeline 1 (attempts
                   (fst (V1.steps (Stub.flaky 2 [Stub.credit]) Stub.noon [])))
   \/
   steps_of (fst (V1.steps (Stub.flaky 2 [Stub.credit]) Stub.noon [])) =
     pipeline 4 1) /\
  List.map (fun f => fst (fst f))
    (failures (fst (V1.steps (Stub.flaky 2 [Stub.credit]) Stub.noon []))) =
    repeat Checkout
      (attempts (fst (V1.steps (Stub.flaky 2 [Stub.credit]) Stub.noon []))
       - 1) /\
  last (fst (V1.steps (Stub.flaky 2 [Stub.credit]) Stub.noon [])) paid
    = paid /\
  exists m,
    replies_of Pay (fst (V1.steps (Stub.flaky 2 [Stub.credit]) Stub.noon []))
    = [GotMap m].
Proof.
  refine (returns_only_after_paying (Stub.flaky 2 [Stub.credit]) Stub.noon
            (V1.steps (Stub.flaky 2 [Stub.credit]) Stub.noon []) _ _).
  - left; reflexivity.
  - vm_compute; reflexivity.
Defined.

(* ------------------------------------------------------------------------- *)
(** ** Failed calls *)

(** A failure among the few of a trace. *)
Ltac pick_failure H :=
  cbv [failures flat_map app fst] in H; cbn [In] in H;
  repeat (destruct H as [H | H]); try contradiction;
  injection H as <- <- <-.

Section Failures.
Variable c : Client.
Variable now : Time.t.

(** X4.  In v1main.go a call that fails, other than a checkout attempt, is
    the last call of the run, and the run exits with the message of its
    step followed by the error of the call; a failed configuration names
    its label, the failed option is not named. *)
Theorem v1_failed_call_is_fatal s rq err :
  In (s, rq, err) (failures (fst (V1.steps c now []))) ->
  s <> Checkout ->
  snd (V1.steps c now []) = Fatal (exit_message_v1 s rq err) /\
  last_call (fst (V1.steps c now [])) = Some (ECall s rq (Failed err)).
Proof.
  wp_v1 c now (fun r : run =>
    In (s, rq, err) (failures (fst r)) -> s <> Checkout ->
    snd r = Fatal (exit_message_v1 s rq err) /\
    last_call (fst r) = Some (ECall s rq (Failed err))).
  all: intros Hin Hs; pick_failure Hin; try (now destruct Hs).
  all: split; reflexivity.
Qed.

(** X5.  In v3main.go every call that fails is the last call of the run, and
    the run exits with the message of its step followed by the error of the
    call; a failed option names its plan code, a failed checkout is not
    tried again. *)
Theorem v3_failed_call_is_fatal s rq err :
  In (s, rq, err) (failures (fst (V3.steps c now []))) ->
  snd (V3.steps c now []) = Fatal (exit_message_v3 s rq err) /\
  last_call (fst (V3.steps c now [])) = Some (ECall s rq (Failed err)).
Proof.
  wp_v3 c now (fun r : run =>
    In (s, rq, err) (failures (fst r)) ->
    snd r = Fatal (exit_message_v3 s rq err) /\
    last_call (fst r) = Some (ECall s rq (Failed err))).
  all: intros Hin; pick_failure Hin.
  all: split; reflexivity.
Qed.

(** X6.  v3main.go never sleeps and never logs an attempt, and makes at most
    one checkout call. *)
Theorem v3_never_waits :
  slept (fst (V3.steps c now [])) = 0 /\
  logs (fst (V3.steps c now [])) = [] /\
  (attempts (fst (V3.steps c now [])) <= 1)%nat.
Proof.
  wp_v3 c now (fun r : run =>
    slept (fst r) = 0 /\ logs (fst r) = [] /\ (attempts (fst r) <= 1)%nat).
  all: repeat split; try reflexivity;
    cbv [attempts requests_of flat_map step_eqb app fst List.length]; lia.
Qed.


(** X8.  When every checkout attempt fails, v1main.go has slept 14 seconds
    in all and logged three attempts: the wait of 8 seconds after the third
    failure is the last thing it does before the fatal exit. *)
Theorem v1_waits_before_giving_up :
  checkout_always_failed (V1.steps c now []) ->
  slept (fst (V1.steps c now [])) = 14 * Time.Second /\
  last (fst (V1.steps c now [])) paid = ESleep (8 * Time.Second) /\
  List.length (logs (fst (V1.steps c now []))) = 3%nat.
Proof.
  wp_v1 c now (fun r : run =>
    checkout_always_failed r ->
    slept (fst r) = 14 * Time.Second /\
    last (fst r) paid = ESleep (8 * Time.Second) /\
    List.length (logs (fst r)) = 3%nat).
  all: cbv [checkout_always_failed]; cbn;
      intros [Hsome Hnone]; try congruence; try discriminate.
  all: repeat split.
Qed.

(** X9.  A run panics only on a broken type assertion: the message of the
    panic is that of the first reply that breaks one. *)
Theorem panics_only_on_broken_assertion r msg :
  runs c now r -> snd r = Panic msg -> assertion_failure (fst r) = Some msg.
Proof.
  intros Hr.
  either_run c now
    (fun r : run => snd r = Panic msg -> assertion_failure (fst r) = Some msg)
    Hr.
  all: cbn [fst snd]; intros Hp; try discriminate Hp; injection Hp as <-.
  all: cbn [assertion_failure breaks_assertion].
  all: repeat (match goal with
               | H : index ?m ?k = _ |- context [index ?m ?k] => rewrite H
               end;
               cbn [assertion_failure breaks_assertion]).
  all: match goal with
       | H : forall s, index ?m ?k <> _ |- _ =>
           destruct (index m k); try reflexivity;
           exfalso; apply (H _ eq_refl)
       end.
Qed.
End Failures.

Lemma v1_failed_call_is_fatal_witness :
  snd (V1.steps (Stub.no_option "boom" [Stub.credit]) Stub.noon []) =
  Fatal "Error adding option: boom".
Proof.
  apply (v1_failed_call_is_fatal (Stub.no_option "boom" [Stub.credit])
           Stub.noon AddOption
           (POST "/order/cart/c-1/baremetalServers/options"
              (VMap [("duration", VString "P1M");
                     ("itemId", VInt64 42);
                     ("planCode", VString "vrack-bandwidth-1000-24rise-us");
                     ("pricingMode", VString "default");
                     ("quantity", VInt 1)]))
           "boom").
  - vm_compute. left; reflexivity.
  - discriminate.
Defined.

Lemma v3_failed_call_is_fatal_witness :
  snd (V3.steps (Stub.flaky 1 [Stub.credit]) Stub.noon []) =
  Fatal "Error validating order: locked".
Proof.
  apply (v3_failed_call_is_fatal (Stub.flaky 1 [Stub.credit]) Stub.noon
           Checkout (POST "/order/cart/c-1/checkout" VNil) "locked").
  vm_compute. left; reflexivity.
Defined.

Lemma v1_waits_before_giving_up_witness :
  slept (fst (V1.steps (Stub.flaky 3 [Stub.credit]) Stub.noon [])) =
  14 * Time.Second.
Proof.
  apply (v1_waits_before_giving_up (Stub.flaky 3 [Stub.credit]) Stub.noon).
  split; [discriminate | reflexivity].
Defined.

Lemma panics_only_on_broken_assertion_witness :
  assertion_failure
    (fst (V1.steps (Stub.happy [Stub.A1]) Stub.noon [])) =
  Some "interface conversion: interface {} is string, not json.Number".
Proof.
  apply (panics_only_on_broken_assertion (Stub.happy [Stub.A1]) Stub.noon).
  - left; reflexivity.
  - vm_compute; reflexivity.
Defined.

(* ------------------------------------------------------------------------- *)
(** ** Start-up (lines 16-35) *)

(** X10.  When one of the four credentials is missing from the environment,
    both programs exit with the request to set them, before a client is
    made and before any call. *)
Theorem main_needs_credentials getenv NewClient now :
  (exists k, In k credentials /\ getenv k = "") ->
  V1.main getenv NewClient now = ([], Fatal please_set) /\
  V3.main getenv NewClient now = ([], Fatal please_set).
Proof.
  intros [k [Hk He]]. unfold V1.main, V3.main.
  assert (Hor : String.eqb (getenv "OVH_ENDPOINT") "" ||
                String.eqb (getenv "OVH_APPLICATION_KEY") "" ||
                String.eqb (getenv "OVH_APPLICATION_SECRET") "" ||
                String.eqb (getenv "OVH_CONSUMER_KEY") "" = true).
  { cbn [credentials In] in Hk.
    destruct Hk as [<- | [<- | [<- | [<- | []]]]]; rewrite He;
      cbn [String.eqb]; rewrite ?orb_true_r; reflexivity. }
  cbv zeta. rewrite Hor. split; reflexivity.
Qed.

(** With the four credentials set, a client that cannot be made is a
    fatal exit with no call made, and a client that is made runs the steps
    from an empty trace. *)
Theorem main_runs_the_steps getenv NewClient now :
  (forall k, In k credentials -> getenv k <> "") ->
  let made := NewClient (getenv "OVH_ENDPOINT") (getenv "OVH_APPLICATION_KEY")
                (getenv "OVH_APPLICATION_SECRET") (getenv "OVH_CONSUMER_KEY") in
  V1.main getenv NewClient now =
    match made with
    | inl err => ([], Fatal ("Error creating OVH client: " ++ err))
    | inr client => V1.steps client now []
    end /\
  V3.main getenv NewClient now =
    match made with
    | inl err => ([], Fatal ("Error creating OVH client: " ++ err))
    | inr client => V3.steps client now []
    end.
Proof.
  intros Hset. unfold V1.main, V3.main. cbv zeta.
  assert (Hne : forall k, In k credentials -> String.eqb (getenv k) "" = false).
  { intros k Hk. apply String.eqb_neq. apply Hset; exact Hk. }
  rewrite !Hne by (cbn; tauto). cbn [orb]. split; reflexivity.
Qed.

(* ------------------------------------------------------------------------- *)
(** ** Integer literals *)

Lemma parse_digits_all_digits s :
  forall n r, parse_digits s n = inl r -> all_digits s = true.
Proof.
  induction s as [| ch s IH]; intros n r H; cbn [parse_digits all_digits] in *.
  - reflexivity.
  - unfold is_digit. destruct (digit_of ch) as [d |]; [| discriminate].
    destruct (n >=? (2 ^ 64 - 1) / 10 + 1); [discriminate |].
    cbv zeta in H.
    match type of H with
    | (if ?b then _ else _) = _ => destruct b; [discriminate |]
    end.
    cbn [andb]. eapply IH; exact H.
Qed.

(** X11.  ParseInt accepts nothing but one optional sign followed by at
    least one decimal digit: a number literal with a fraction or an exponent
    is a conversion error. *)
Theorem ParseInt_accepts_integer_literals_only s n :
  ParseInt s = inl n -> integer_literal s.
Proof.
  unfold ParseInt, integer_literal.
  destruct s as [| ch s]; [discriminate |]. cbv zeta.
  intros H.
  set (rest := if (Ascii.eqb ch "+" || Ascii.eqb ch "-")%bool then s else String ch s) in *.
  exists rest.
  assert (Hrest : rest <> EmptyString /\ all_digits rest = true).
  { unfold ParseUint in H. destruct rest as [| ch' rest']; [discriminate |].
    split; [discriminate |].
    destruct (parse_digits (String ch' rest') 0) as [u | [|]] eqn:Eu.
    - eapply parse_digits_all_digits; exact Eu.
    - discriminate.
    - exfalso. destruct (Ascii.eqb ch "-"); cbn in H; discriminate. }
  split; [| exact Hrest].
  subst rest.
  destruct (Ascii.eqb_spec ch "+") as [-> | Hp]; cbn [orb].
  - right; left; reflexivity.
  - destruct (Ascii.eqb_spec ch "-") as [-> | Hm].
    + right; right; reflexivity.
    + left; reflexivity.
Qed.

Lemma main_needs_credentials_witness :
  V1.main (fun _ => "") (fun _ _ _ _ => inl "unused") Stub.noon =
    ([], Fatal please_set) /\
  V3.main (fun _ => "") (fun _ _ _ _ => inl "unused") Stub.noon =
    ([], Fatal please_set).
Proof.
  apply main_needs_credentials.
  exists "OVH_ENDPOINT". split; [left; reflexivity | reflexivity].
Defined.

Lemma main_runs_the_steps_witness :
  V1.main (fun _ => "x") (fun _ _ _ _ => inr (Stub.happy [])) Stub.noon =
    V1.steps (Stub.happy []) Stub.noon [] /\
  V3.main (fun _ => "x") (fun _ _ _ _ => inr (Stub.happy [])) Stub.noon =
    V3.steps (Stub.happy []) Stub.noon [].
Proof.
  apply (main_runs_the_steps (fun _ => "x")
           (fun _ _ _ _ => inr (Stub.happy [])) Stub.noon).
  intros k _. discriminate.
Defined.

Lemma ParseInt_accepts_integer_literals_only_witness :
  integer_literal "-12345".
Proof.
  apply (ParseInt_accepts_integer_literals_only "-12345" (-12345)).
  reflexivity.
Defined.

Lemma val_grows d : forall acc, 0 <= acc -> acc <= val d acc.
Proof.
  induction d; intros acc Hacc; cbn [val]; try lia;
    match goal with
    | |- _ <= val _ ?a => specialize (IHd a); lia
    end.
Qed.

Lemma val_pos d : forall acc,
  val d (Zpos acc) = Zpos (Pos.of_uint_acc d acc).
Proof.
  induction d; intros acc; cbn [val Pos.of_uint_acc]; try reflexivity;
    rewrite <- IHd; f_equal; lia.
Qed.

Lemma val_0 d : val d 0 = Z.of_N (Pos.of_uint d).
Proof.
  induction d; cbn [val Pos.of_uint]; try reflexivity;
    try (exact IHd);
    change (10 * 0 + 1) with 1; change (10 * 0 + 2) with 2;
    change (10 * 0 + 3) with 3; change (10 * 0 + 4) with 4;
    change (10 * 0 + 5) with 5; change (10 * 0 + 6) with 6;
    change (10 * 0 + 7) with 7; change (10 * 0 + 8) with 8;
    change (10 * 0 + 9) with 9; rewrite val_pos; reflexivity.
Qed.

Lemma parse_digits_val d : forall acc,
  0 <= acc -> val d acc < 2 ^ 64 ->
  parse_digits (NilEmpty.string_of_uint d) acc = inl (val d acc).
Proof.
  induction d; intros acc Hacc Hval;
    cbn [NilEmpty.string_of_uint parse_digits val] in *; try reflexivity.
  all: match goal with
       | H : val ?d ?a < _ |- _ =>
           pose proof (val_grows d a ltac:(lia)) as Hg
       end.
  all: match goal with
       | |- match digit_of ?ch with _ => _ end = _ =>
           let v := eval vm_compute in (digit_of ch) in
           change (digit_of ch) with v; cbv iota
       end.
  all: cbv zeta; unfold wrap_u64.
  all: change ((2 ^ 64 - 1) / 10 + 1) with 1844674407370955162;
    change (2 ^ 64) with 18446744073709551616 in *.
  all: match goal with
       | Hacc : 0 <= ?acc |- context [((?acc * 10) mod _ + ?k) mod _] =>
           destruct (Z.geb_spec acc 1844674407370955162); [exfalso; lia |];
           rewrite (Z.mod_small (acc * 10)) by lia;
           rewrite (Z.mod_small (acc * 10 + k)) by lia;
           destruct (Z.ltb_spec (acc * 10 + k) (acc * 10)); [lia |];
           destruct (Z.gtb_spec (acc * 10 + k) (18446744073709551616 - 1));
             [lia |];
           cbn [orb];
           replace (acc * 10 + k) with (10 * acc + k) in * by lia;
           try (replace (10 * acc + 0) with (10 * acc) by lia)
       end.
  all: apply IHd; lia.
Qed.

Lemma first_is_digit d :
  d <> Decimal.Nil ->
  exists ch s, NilEmpty.string_of_uint d = String ch s /\
               Ascii.eqb ch "+" = false /\ Ascii.eqb ch "-" = false.
Proof.
  destruct d; [now intros [] | ..]; intros _;
    cbn [NilEmpty.string_of_uint]; eexists; eexists; repeat split.
Qed.

Lemma ParseUint_to_uint p :
  Zpos p < 2 ^ 64 ->
  ParseUint (NilEmpty.string_of_uint (Pos.to_uint p)) = inl (Zpos p).
Proof.
  intros Hp.
  assert (Hv : val (Pos.to_uint p) 0 = Zpos p)
    by (rewrite val_0, Unsigned.of_to; reflexivity).
  destruct (first_is_digit (Pos.to_uint p) (Unsigned.to_uint_nonnil p))
    as (ch & s & Hs & _).
  unfold ParseUint. rewrite Hs, <- Hs, <- Hv.
  apply parse_digits_val; [lia | rewrite Hv; exact Hp].
Qed.

(** X12.  Printing a 64-bit integer with [%d] and parsing the text with
    ParseInt gives the integer back. *)
Theorem ParseInt_itoa n :
  - 2 ^ 63 <= n < 2 ^ 63 -> ParseInt (itoa n) = inl n.
Proof.
  intros Hn. destruct n as [| p | p]; [reflexivity | |].
  - unfold itoa. cbn [Z.to_int NilZero.string_of_int].
    pose proof (Unsigned.to_uint_nonnil p) as Hnil.
    destruct (first_is_digit _ Hnil) as (ch & s & Hs & Hplus & Hminus).
    replace (NilZero.string_of_uint (Pos.to_uint p))
      with (NilEmpty.string_of_uint (Pos.to_uint p))
      by (destruct (Pos.to_uint p); [now destruct Hnil | reflexivity ..]).
    unfold ParseInt. rewrite Hs. cbv zeta. rewrite Hplus, Hminus.
    cbn [orb negb andb]. rewrite <- Hs, ParseUint_to_uint by lia.
    destruct (Z.geb_spec (Zpos p) (2 ^ 63)); [lia | reflexivity].
  - unfold itoa. cbn [Z.to_int NilZero.string_of_int].
    pose proof (Unsigned.to_uint_nonnil p) as Hnil.
    replace (NilZero.string_of_uint (Pos.to_uint p))
      with (NilEmpty.string_of_uint (Pos.to_uint p))
      by (destruct (Pos.to_uint p); [now destruct Hnil | reflexivity ..]).
    unfold ParseInt. cbv zeta.
    change (Ascii.eqb "-" "-") with true.
    change (Ascii.eqb "-" "+") with false. cbn [orb negb andb].
    rewrite ParseUint_to_uint by lia.
    destruct (Z.gtb_spec (Zpos p) (2 ^ 63)); [lia | reflexivity].
Qed.

Lemma ParseInt_itoa_witness : ParseInt (itoa (- 2 ^ 63)) = inl (- 2 ^ 63).
Proof.
  apply ParseInt_itoa. split; [reflexivity | reflexivity].
Defined.

(* ------------------------------------------------------------------------- *)
(** ** What the requests carry *)

Section Bodies.
Variable c : Client.
Variable now : Time.t.

(** X13.  Both programs configure the item label by label in the order of
    their list, each label with its value and at most once: the labels and
    values sent are a beginning of the list. *)
Theorem configuration_in_order :
  (starts (sent ConfigureItem "label" (fst (V1.steps c now [])))
          (List.map (fun lv => VString (fst lv)) V1.configItems) /\
   starts (sent ConfigureItem "value" (fst (V1.steps c now [])))
          (List.map (fun lv => VString (snd lv)) V1.configItems)) /\
  (starts (sent ConfigureItem "label" (fst (V3.steps c now [])))
          (List.map (fun lv => VString (fst lv)) V3.configItems) /\
   starts (sent ConfigureItem "value" (fst (V3.steps c now [])))
          (List.map (fun lv => VString (snd lv)) V3.configItems)).
Proof.
  split.
  - wp_v1 c now (fun r : run =>
      starts (sent ConfigureItem "label" (fst r))
             (List.map (fun lv => VString (fst lv)) V1.configItems) /\
      starts (sent ConfigureItem "value" (fst r))
             (List.map (fun lv => VString (snd lv)) V1.configItems)).
    all: split; eexists; reflexivity.
  - wp_v3 c now (fun r : run =>
      starts (sent ConfigureItem "label" (fst r))
             (List.map (fun lv => VString (fst lv)) V3.configItems) /\
      starts (sent ConfigureItem "value" (fst r))
             (List.map (fun lv => VString (snd lv)) V3.configItems)).
    all: split; eexists; reflexivity.
Qed.

(** X14.  v3main.go adds the options in the order of its list, each at most
    once, and a run that reaches the checkout has added all four. *)
Theorem v3_options_in_order :
  starts (sent AddOption "planCode" (fst (V3.steps c now [])))
         (List.map VString V3.options) /\
  (attempts (fst (V3.steps c now [])) = 1%nat ->
   sent AddOption "planCode" (fst (V3.steps c now [])) =
   List.map VString V3.options).
Proof.
  wp_v3 c now (fun r : run =>
    starts (sent AddOption "planCode" (fst r)) (List.map VString V3.options) /\
    (attempts (fst r) = 1%nat ->
     sent AddOption "planCode" (fst r) = List.map VString V3.options)).
  all: split; [eexists; reflexivity |].
  all: cbv [attempts requests_of flat_map step_eqb app fst List.length];
    intros Ha; try discriminate Ha; reflexivity.
Qed.
End Bodies.

Lemma v3_options_in_order_witness :
  sent AddOption "planCode"
       (fst (V3.steps (Stub.happy []) Stub.noon [])) =
  List.map VString V3.options.
Proof.
  apply (v3_options_in_order (Stub.happy []) Stub.noon).
  vm_compute; reflexivity.
Defined.
